(** * kde-1d.ipynb: one-dimensional kernel density estimation, three figures

    A shallow embedding of the code cells of
    [_posts/scikit/1D-kernel-density-estimation/kde-1d.ipynb] (Python 2.7).
    The notebook is a straight-line script over three external libraries
    (NumPy/SciPy, scikit-learn, plotly).  Python floats are IEEE binary64
    numbers and are embedded as Rocq's primitive floats, so the arithmetic the
    cells perform on literals ([0.3 * N], [0.7 * N]) is computed exactly as
    the interpreter computes it.  The libraries are interfaces (type classes):
    their operations are parameters, and the few facts the notebook relies on
    are stated as laws of the interface. *)

From Stdlib Require Import ZArith List String Ascii Bool Lia.
From Stdlib Require Import Floats DecimalString DecimalPos DecimalZ.
Import ListNotations.

Set Warnings "-inexact-float".
Set Implicit Arguments.

Local Open Scope string_scope.
Local Open Scope list_scope.
Local Open Scope Z_scope.

(* ================================================================== *)
(** ** Python scalars *)
(* ================================================================== *)

Module Py.

(** The two kinds of numbers the notebook passes around. *)
Inductive num :=
| Int (z : Z)
| Float (f : float).

(** Values interpolated by [str.format]. *)
Inductive val :=
| VInt (z : Z)
| VStr (s : string).

(** [float(n)] for a Python int [n] below 2^63 in magnitude: exact below
    2^53 and rounded to nearest above, as Python converts. *)
Definition float_of_int (z : Z) : float :=
  if z <? 0 then PrimFloat.opp (PrimFloat.of_uint63 (Uint63.of_Z (- z)))
  else PrimFloat.of_uint63 (Uint63.of_Z z).

(** [int(x)] for a Python float [x]: truncation toward zero; NaN and the
    infinities raise, rendered as [None]. *)
Definition int_of_float (x : float) : option Z :=
  match Prim2SF x with
  | S754_zero _ => Some 0
  | S754_finite s m e =>
      let a := if 0 <=? e then Z.pos m * 2 ^ e else Z.pos m / 2 ^ (- e) in
      Some (if s then - a else a)
  | S754_infinity _ | S754_nan => None
  end.

(** [str(n)] for a Python int. *)
Definition str_of_int (z : Z) : string := NilZero.string_of_int (Z.to_int z).

(** [str(v)] as [format] applies it to a field's argument. *)
Definition str (v : val) : string :=
  match v with
  | VInt z => str_of_int z
  | VStr s => s
  end.

Definition is_digit (c : ascii) : bool :=
  let n := nat_of_ascii c in (48 <=? n)%nat && (n <=? 57)%nat.

Definition digit_val (c : ascii) : nat := (nat_of_ascii c - 48)%nat.

(** [template.format( *args )] for templates made of literal text, the
    escapes [{{] and [}}], and replacement fields [{k}] with an explicit
    decimal index [k].  A stray brace or an index past the arguments raises
    in Python; both are [None] here, as is any other field syntax
    (automatic numbering, names, conversions, format specs), which this
    embedding does not cover.  [fld] is the index read so far when the scan
    is inside a field. *)
Fixpoint format_from (t : string) (args : list val) (fld : option (option nat))
  : option string :=
  match t with
  | EmptyString =>
      match fld with
      | None => Some EmptyString
      | Some _ => None
      end
  | String c rest =>
      match fld with
      | Some k =>
          if is_digit c then
            let k' := match k with
                      | None => digit_val c
                      | Some n => (10 * n + digit_val c)%nat
                      end in
            format_from rest args (Some (Some k'))
          else if Ascii.eqb c "}" then
            match k with
            | None => None
            | Some n =>
                match nth_error args n, format_from rest args None with
                | Some v, Some out => Some (String.append (str v) out)
                | _, _ => None
                end
            end
          else None
      | None =>
          if Ascii.eqb c "{" then
            match rest with
            | String "{" rest' =>
                option_map (String "{") (format_from rest' args None)
            | _ => format_from rest args (Some None)
            end
          else if Ascii.eqb c "}" then
            match rest with
            | String "}" rest' =>
                option_map (String "}") (format_from rest' args None)
            | _ => None
            end
          else option_map (String c) (format_from rest args None)
      end
  end.

Definition format (t : string) (args : list val) : option string :=
  format_from t args None.

(** [range(start, stop, step)] for a positive step.  A zero step raises
    [ValueError]; it and the descending ranges of a negative step, which the
    notebook does not use, are [None]. *)
Definition range (start stop step : Z) : option (list Z) :=
  if step <=? 0 then None
  else
    let n := Z.to_nat ((stop - start + step - 1) / step) in
    Some (map (fun i => start + Z.of_nat i * step) (seq 0 n)).

End Py.

(* ================================================================== *)
(** ** The libraries the notebook calls *)
(* ================================================================== *)

(** One-dimensional arrays are lists of floats; a two-dimensional array is
    the list of its rows. *)
Definition array := list float.
Definition matrix := list (list float).

(** NumPy (with [scipy.stats.norm]).  [rng] is the state of the global
    Mersenne-Twister generator behind [np.random]; an operation that draws
    returns the value and the next state. *)
Class NumPy := {
  rng : Type;
  (** the state [np.random.seed(n)] installs *)
  seeded : Z -> rng;
  (** one draw of [np.random.normal(loc, scale)] *)
  draw_normal : float -> float -> rng -> float * rng;
  (** one draw of [np.random.random()] *)
  draw_uniform : rng -> float * rng;
  (** [np.exp] at one element *)
  exp : float -> float;
  (** [np.linspace(start, stop, num)] *)
  linspace : float -> float -> Z -> array;
  (** [scipy.stats.norm(loc, scale).pdf] at one element *)
  norm_pdf : float -> float -> float -> float;

  linspace_length :
    forall a b n, 0 <= n -> List.length (linspace a b n) = Z.to_nat n;
  exp_nonneg :
    forall v, PrimFloat.is_nan v = false -> PrimFloat.leb 0 (exp v) = true
}.

(** The parameters of a [sklearn.neighbors.KernelDensity] estimator. *)
Record KernelDensity := {
  kernel : string;
  bandwidth : float
}.

(** scikit-learn 0.18.  [fit] builds the tree over the training rows, and
    [score_samples] returns the log-density at each row of its argument:
    finite, or minus infinity where the estimate is zero. *)
Class SkLearn := {
  sklearn_version : string;
  fitted : Type;
  fit : KernelDensity -> matrix -> fitted;
  score_samples : fitted -> matrix -> array;

  score_samples_length :
    forall m G, List.length (score_samples m G) = List.length G;
  score_samples_not_nan :
    forall m G, Forall (fun v => PrimFloat.is_nan v = false) (score_samples m G)
}.

(** The kernel names [KernelDensity] accepts (its [VALID_KERNELS]). *)
Definition VALID_KERNELS : list string :=
  ["gaussian"; "tophat"; "epanechnikov"; "exponential"; "linear"; "cosine"].

(** The parameters [KernelDensity.__init__] stores for the keyword arguments
    of a call ([None] for one left out): the defaults are ['gaussian'] and
    [1.0]; a bandwidth that is not positive or an unknown kernel name raises
    [ValueError] ([None]). *)
Definition estimator_params (kw_kernel : option string) (kw_bandwidth : option float)
  : option KernelDensity :=
  let k := match kw_kernel with Some k => k | None => "gaussian" end in
  let h := match kw_bandwidth with Some h => h | None => 1%float end in
  if PrimFloat.leb h 0 then None
  else if existsb (String.eqb k) VALID_KERNELS
       then Some {| kernel := k; bandwidth := h |}
       else None.

(* ------------------------------------------------------------------ *)
(** *** plotly graph objects *)
(* ------------------------------------------------------------------ *)

Module Plotly.

Record Line := {
  line_color : option string;
  line_width : option Z;
  line_dash : option string
}.

Record Marker := {
  marker_color : option string;
  marker_line : option Line
}.

Inductive trace_type := Histogram | Scatter.

(** A [go.Histogram] or [go.Scatter] with the attributes the notebook sets.
    [xaxis]/[yaxis] are the axis references [append_trace] assigns. *)
Record Trace := {
  ttype : trace_type;
  x : array;
  y : option array;
  nbinsy : option Z;
  mode : option string;
  fill : option string;
  name : option string;
  showlegend : option bool;
  line : option Line;
  marker : option Marker;
  xaxis : option string;
  yaxis : option string
}.

(** Where an annotation sits: at a point in data coordinates, or as the
    title centred over the subplot in a grid cell (plotly computes paper
    coordinates from the cell's domain; the cell stands for them here). *)
Inductive anchor :=
| AtPoint (ax ay : float)
| OverSubplot (row col : Z).

Record Annotation := {
  text : string;
  at_ : anchor;
  showarrow : bool
}.

Record Axis := {
  axis_title : option string;
  zeroline : option bool
}.

Record Layout := {
  annotations : list Annotation;
  axes : list (string * Axis);
  hovermode : option string;
  height : option Z;
  layout_showlegend : option bool;
  title : option string
}.

(** A figure; [grid] is the subplot grid (rows, columns) of a figure made by
    [make_subplots], absent from one made by [go.Figure]. *)
Record Figure := {
  data : list Trace;
  layout : Layout;
  grid : option (Z * Z)
}.

Definition no_axis : Axis := {| axis_title := None; zeroline := None |}.

(** The number of the axis pair of cell (row, col), counted row by row from
    the top-left cell, as the grid printed by [make_subplots] shows:
    [(1,1) x1,y1] [(1,2) x2,y2] / [(2,1) x3,y3] [(2,2) x4,y4]. *)
Definition cell_number (cols row col : Z) : Z := (row - 1) * cols + col.

(** The cell of the [j]-th subplot in row-major order. *)
Definition cell_of_index (cols : Z) (j : nat) : Z * Z :=
  (Z.of_nat j / cols + 1, Z.of_nat j mod cols + 1).

Definition title_annotation (cols : Z) (j : nat) (t : string) : Annotation :=
  let '(r, c) := cell_of_index cols j in
  {| text := t; at_ := OverSubplot r c; showarrow := false |}.

Fixpoint title_annotations (cols : Z) (j : nat) (titles : list string)
  : list Annotation :=
  match titles with
  | [] => []
  | t :: ts =>
      if String.eqb t EmptyString then title_annotations cols (S j) ts
      else title_annotation cols j t :: title_annotations cols (S j) ts
  end.

Definition grid_axes (n : nat) : list (string * Axis) :=
  flat_map (fun k =>
              let s := Py.str_of_int (Z.of_nat k) in
              [(String.append "xaxis" s, no_axis);
               (String.append "yaxis" s, no_axis)])
           (seq 1 n).

(** [tools.make_subplots(rows, cols, subplot_titles)]: an empty figure
    with one axis pair per cell and the titles, in row-major order, as
    annotations over their cells.  Empty titles are skipped; a grid without
    cells or more titles than cells raise ([None]). *)
Definition make_subplots (rows cols : Z) (subplot_titles : list string)
  : option Figure :=
  if (rows <? 1) || (cols <? 1) then None
  else if (Z.to_nat (rows * cols) <? List.length subplot_titles)%nat then None
  else Some {| data := [];
               layout := {| annotations := title_annotations cols 0 subplot_titles;
                            axes := grid_axes (Z.to_nat (rows * cols));
                            hovermode := None; height := None;
                            layout_showlegend := None; title := None |};
               grid := Some (rows, cols) |}.

Definition set_axes (t : Trace) (k : Z) : Trace :=
  {| ttype := ttype t; x := x t; y := y t; nbinsy := nbinsy t; mode := mode t;
     fill := fill t; name := name t; showlegend := showlegend t;
     line := line t; marker := marker t;
     xaxis := Some (String.append "x" (Py.str_of_int k));
     yaxis := Some (String.append "y" (Py.str_of_int k)) |}.

(** [fig.append_trace(trace, row, col)]: the trace is bound to the axes of
    the cell and added to the figure's data.  A figure without a grid, or a
    cell outside it, raises ([None]). *)
Definition append_trace (fig : Figure) (t : Trace) (row col : Z) : option Figure :=
  match grid fig with
  | None => None
  | Some (rows, cols) =>
      if (1 <=? row) && (row <=? rows) && (1 <=? col) && (col <=? cols) then
        Some {| data := data fig ++ [set_axes t (cell_number cols row col)];
                layout := layout fig;
                grid := grid fig |}
      else None
  end.

(** [fig['layout'][key].update(title=t)]: [KeyError] ([None]) when the
    layout has no such axis. *)
Fixpoint update_axis_title (l : list (string * Axis)) (key t : string)
  : option (list (string * Axis)) :=
  match l with
  | [] => None
  | (k, a) :: rest =>
      if String.eqb k key
      then Some ((k, {| axis_title := Some t; zeroline := zeroline a |}) :: rest)
      else option_map (cons (k, a)) (update_axis_title rest key t)
  end.

Definition with_layout (fig : Figure) (l : Layout) : Figure :=
  {| data := data fig; layout := l; grid := grid fig |}.

Definition with_axes (l : Layout) (a : list (string * Axis)) : Layout :=
  {| annotations := annotations l; axes := a; hovermode := hovermode l;
     height := height l; layout_showlegend := layout_showlegend l; title := title l |}.

(** [go.Figure(data=data, layout=layout)]. *)
Definition mkFigure (d : list Trace) (l : Layout) : Figure :=
  {| data := d; layout := l; grid := None |}.

End Plotly.

(* ================================================================== *)
(** ** The notebook's state and effects *)
(* ================================================================== *)

(** What a run does to the outside: estimators constructed (with the keyword
    arguments as the call wrote them, [None] for one left out), charts sent to
    plotly, and the other outputs of the cells. *)
Inductive event :=
| NewKernelDensity (kw_kernel : option string) (kw_bandwidth : option float)
| IPlot (fig : Plotly.Figure)
| Result (text : string)
| DisplayHTML (html : string)
| Shell (command : string)
| Publish (args : list string) (kwargs : list (string * Py.val)).

(** The interpreter's global names that a later cell or a statement below
    reads; [None] is an unbound name. *)
Module Vars.

Record t := {
  N : option Z;
  X : option matrix;
  X_plot : option matrix;
  X_src : option matrix;
  true_dens : option array;
  fig : option Plotly.Figure
}.

Definition unbound : t :=
  {| N := None; X := None; X_plot := None; X_src := None;
     true_dens := None; fig := None |}.

Definition set_N (v : Z) (g : t) : t :=
  {| N := Some v; X := X g; X_plot := X_plot g; X_src := X_src g;
     true_dens := true_dens g; fig := fig g |}.
Definition set_X (v : matrix) (g : t) : t :=
  {| N := N g; X := Some v; X_plot := X_plot g; X_src := X_src g;
     true_dens := true_dens g; fig := fig g |}.
Definition set_X_plot (v : matrix) (g : t) : t :=
  {| N := N g; X := X g; X_plot := Some v; X_src := X_src g;
     true_dens := true_dens g; fig := fig g |}.
Definition set_X_src (v : matrix) (g : t) : t :=
  {| N := N g; X := X g; X_plot := X_plot g; X_src := Some v;
     true_dens := true_dens g; fig := fig g |}.
Definition set_true_dens (v : array) (g : t) : t :=
  {| N := N g; X := X g; X_plot := X_plot g; X_src := X_src g;
     true_dens := Some v; fig := fig g |}.
Definition set_fig (v : Plotly.Figure) (g : t) : t :=
  {| N := N g; X := X g; X_plot := X_plot g; X_src := X_src g;
     true_dens := true_dens g; fig := Some v |}.

End Vars.

(** State and exceptions: a computation takes the state and either raises
    ([None]) or returns a value and the next state. *)
Definition M (S A : Type) : Type := S -> option (A * S).

Definition ret {S A} (a : A) : M S A := fun s => Some (a, s).

Definition bind {S A B} (c : M S A) (k : A -> M S B) : M S B :=
  fun s => match c s with
           | Some (a, s') => k a s'
           | None => None
           end.

(** A fallible pure step: [None] raises. *)
Definition try {S A} (o : option A) : M S A :=
  fun s => match o with
           | Some a => Some (a, s)
           | None => None
           end.

Notation "x <- c ;; k" := (bind c (fun x => k))
  (at level 61, c at next level, right associativity).
Notation "c ;; k" := (bind c (fun _ => k))
  (at level 61, right associativity).

(** [for x in l: acc = body(acc, x)]. *)
Fixpoint for_each {S A B} (l : list A) (body : B -> A -> M S B) (acc : B) : M S B :=
  match l with
  | [] => ret acc
  | a :: rest => acc' <- body acc a ;; for_each rest body acc'
  end.

(** [enumerate(l)]. *)
Definition enumerate {A} (l : list A) : list (Z * A) :=
  combine (map Z.of_nat (seq 0 (List.length l))) l.

(* ------------------------------------------------------------------ *)
(** *** Array operations *)
(* ------------------------------------------------------------------ *)

(** [a[:, np.newaxis]]: a one-dimensional array as a single column. *)
Definition newaxis (a : array) : matrix := map (fun v => [v]) a.

(** [m[:, 0]]: the first column; [IndexError] ([None]) when a row is empty. *)
Fixpoint column0 (m : matrix) : option array :=
  match m with
  | [] => Some []
  | [] :: _ => None
  | (v :: _) :: rest => option_map (cons v) (column0 rest)
  end.

(** [np.concatenate((a, b))] for two one-dimensional arrays. *)
Definition concatenate (a b : array) : array := a ++ b.

(** [m.shape[0]]. *)
Definition shape0 (m : matrix) : Z := Z.of_nat (List.length m).

(** [np.zeros((1, 1))]. *)
Definition zeros_1_1 : matrix := [[0%float]].

(** [c * a] and [c - a] for a scalar [c] and an array [a]. *)
Definition scalar_mul (c : float) (a : array) : array := map (PrimFloat.mul c) a.
Definition scalar_sub (c : float) (a : array) : array := map (PrimFloat.sub c) a.

(** [a + b] for one-dimensional arrays of one length; other shapes are a
    broadcasting matter that does not arise and are [None]. *)
Fixpoint array_add (a b : array) : option array :=
  match a, b with
  | [], [] => Some []
  | u :: a', v :: b' => option_map (cons (PrimFloat.add u v)) (array_add a' b')
  | _, _ => None
  end.

(** The length of a dimension given as a Python number.  An int is taken as
    it is.  A float is truncated as [int()] does, which this NumPy still
    accepts (the cells' stderr shows its VisibleDeprecationWarning, "using a
    non-integer number instead of an integer will result in an error in the
    future").  A negative length raises. *)
Definition as_length (size : Py.num) : option nat :=
  match size with
  | Py.Int z => if z <? 0 then None else Some (Z.to_nat z)
  | Py.Float f =>
      match Py.int_of_float f with
      | Some z => if z <? 0 then None else Some (Z.to_nat z)
      | None => None
      end
  end.

(** [n] successive draws of [one], threading the generator state: the values
    drawn, and the state afterwards. *)
Fixpoint draw_values {R : Type} (one : R -> float * R) (n : nat) (r : R) : array :=
  match n with
  | O => []
  | S n' => fst (one r) :: draw_values one n' (snd (one r))
  end.

Fixpoint draw_state {R : Type} (one : R -> float * R) (n : nat) (r : R) : R :=
  match n with
  | O => r
  | S n' => draw_state one n' (snd (one r))
  end.

Definition draws {R : Type} (one : R -> float * R) (n : nat) (r : R) : array * R :=
  (draw_values one n r, draw_state one n r).

Module go.

Import Plotly.

(** [go.Histogram(x=..., nbinsy=..., marker=...)]. *)
Definition Histogram (x : array) (nbinsy : Z) (marker : Marker) : Trace :=
  {| ttype := Plotly.Histogram; x := x; y := None; nbinsy := Some nbinsy;
     mode := None; fill := None; name := None; showlegend := None;
     line := None; marker := Some marker; xaxis := None; yaxis := None |}.

(** [go.Scatter(x=..., y=..., ...)] with the keyword arguments the notebook
    uses; [None] is an argument left out. *)
Definition Scatter (x y : array) (mode fill name : option string)
           (showlegend : option bool) (line : option Line)
           (marker : option Marker) : Trace :=
  {| ttype := Plotly.Scatter; x := x; y := Some y; nbinsy := None;
     mode := mode; fill := fill; name := name; showlegend := showlegend;
     line := line; marker := marker; xaxis := None; yaxis := None |}.

(** [layout.update(hovermode=..., height=..., showlegend=..., title=...)]:
    the arguments given replace the layout's values. *)
Definition update (l : Layout) (hovermode : option string) (height : option Z)
           (showlegend : option bool) (title : option string) : Layout :=
  let keep {A} (new old : option A) :=
    match new with Some _ => new | None => old end in
  {| annotations := annotations l; axes := axes l;
     hovermode := keep hovermode (Plotly.hovermode l);
     height := keep height (Plotly.height l);
     layout_showlegend := keep showlegend (layout_showlegend l);
     title := keep title (Plotly.title l) |}.

End go.

(* ================================================================== *)
(** ** The cells *)
(* ================================================================== *)

Section Notebook.

Context {np : NumPy} {sk : SkLearn}.

Import Plotly.

Record World := {
  np_random : rng;
  globals : Vars.t;
  log : list event
}.

Definition nb (A : Type) : Type := M World A.

(** [np.random.seed(n)]: the generator's state is replaced, whatever it
    was. *)
Definition seed (n : Z) : nb unit :=
  fun w => Some (tt, {| np_random := seeded n; globals := globals w; log := log w |}).

Definition draw_array (one : rng -> float * rng) (size : Py.num) : nb array :=
  fun w => match as_length size with
           | None => None
           | Some n =>
               let d := draws one n (np_random w) in
               Some (fst d, {| np_random := snd d; globals := globals w;
                               log := log w |})
           end.

(** [np.random.normal(loc, scale, size)]. *)
Definition normal (loc scale : float) (size : Py.num) : nb array :=
  draw_array (draw_normal loc scale) size.

(** [np.random.random(size)]. *)
Definition random (size : Py.num) : nb array :=
  draw_array draw_uniform size.

Definition emit (e : event) : nb unit :=
  fun w => Some (tt, {| np_random := np_random w; globals := globals w;
                        log := log w ++ [e] |}).

(** A global name is bound, or read ([NameError] when unbound). *)
Definition assign (set : Vars.t -> Vars.t) : nb unit :=
  fun w => Some (tt, {| np_random := np_random w; globals := set (globals w);
                        log := log w |}).

Definition name_ {A} (get : Vars.t -> option A) : nb A :=
  fun w => match get (globals w) with
           | Some a => Some (a, w)
           | None => None
           end.

(** [KernelDensity(kernel=..., bandwidth=...)]. *)
Definition new_KernelDensity (kw_kernel : option string) (kw_bandwidth : option float)
  : nb KernelDensity :=
  emit (NewKernelDensity kw_kernel kw_bandwidth) ;;
  try (estimator_params kw_kernel kw_bandwidth).

(** [np.exp(a)]. *)
Definition np_exp (a : array) : array := map exp a.

(** [norm(loc, scale).pdf(a)]. *)
Definition pdf (loc scale : float) (a : array) : array := map (norm_pdf loc scale) a.

(** [py.iplot(fig)]. *)
Definition iplot (f : Figure) : nb unit := emit (IPlot f).

Definition blue_line : Line :=
  {| line_color := Some "#AAAAFF"; line_width := Some 2; line_dash := None |}.

Definition blue_marker : Marker :=
  {| marker_color := Some "#AAAAFF";
     marker_line := Some {| line_color := Some "black"; line_width := Some 1;
                            line_dash := None |} |}.

(** In [1]: [sklearn.__version__]. *)
Definition cell_version : nb unit := emit (Result sklearn_version).

(** In [3]: Plot the Progression of Histograms to Kernels. *)
Definition cell_progression : nb unit :=
  seed 1 ;;
  let N := 20 in
  a <- normal 0 1 (Py.Float (0.3 * Py.float_of_int N)) ;;
  b <- normal 5 1 (Py.Float (0.7 * Py.float_of_int N)) ;;
  let X := newaxis (concatenate a b) in
  let X_plot := newaxis (linspace (-5) 10 1000) in
  let bins := 10 in
  fig <- try (make_subplots 2 2 ["Histogram"; "Histogram, bins shifted";
                                 "Tophat Kernel Density"; "Gaussian Kernel Density"]) ;;
  (* histogram 1 *)
  x0 <- try (column0 X) ;;
  fig <- try (append_trace fig (go.Histogram x0 bins blue_marker) 1 1) ;;
  (* histogram 2 *)
  x0 <- try (column0 X) ;;
  fig <- try (append_trace fig (go.Histogram x0 (bins + 20) blue_marker) 1 2) ;;
  (* tophat KDE *)
  kde <- new_KernelDensity (Some "tophat") (Some 0.75%float) ;;
  let log_dens := score_samples (fit kde X) X_plot in
  g <- try (column0 X_plot) ;;
  fig <- try (append_trace fig
                (go.Scatter g (np_exp log_dens) (Some "lines") (Some "tozeroy")
                            None None (Some blue_line) None)
                2 1) ;;
  (* Gaussian KDE *)
  kde <- new_KernelDensity (Some "gaussian") (Some 0.75%float) ;;
  let log_dens := score_samples (fit kde X) X_plot in
  g <- try (column0 X_plot) ;;
  fig <- try (append_trace fig
                (go.Scatter g (np_exp log_dens) (Some "lines") (Some "tozeroy")
                            None None (Some blue_line) None)
                2 2) ;;
  r <- try (Py.range 1 5 2) ;;
  fig <- for_each (map Py.str_of_int r)
           (fun fig i =>
              let y := String.append "yaxis" i in
              ax <- try (update_axis_title (axes (layout fig)) y "Normalized Density") ;;
              ret (with_layout fig (with_axes (layout fig) ax)))
           fig ;;
  let fig := with_layout fig
               (go.update (layout fig) (Some "closest") (Some 600) (Some false) None) in
  assign (Vars.set_N N) ;;
  assign (Vars.set_X X) ;;
  assign (Vars.set_X_plot X_plot) ;;
  assign (Vars.set_fig fig) ;;
  iplot fig.

(** In [4]: Plot all available kernels. *)
Definition cell_kernels : nb unit :=
  let X_plot := newaxis (linspace (-6) 6 1000) in
  let X_src := zeros_1_1 in
  fig <- try (make_subplots 2 3 ["gaussian"; "tophat"; "epanechnikov";
                                 "exponential"; "linear"; "cosine"]) ;;
  fig <- for_each (enumerate ["gaussian"; "tophat"; "epanechnikov";
                              "exponential"; "linear"; "cosine"])
           (fun fig '(i, kernel) =>
              kde <- new_KernelDensity (Some kernel) None ;;
              let log_dens := score_samples (fit kde X_src) X_plot in
              g <- try (column0 X_plot) ;;
              let trace := go.Scatter g (np_exp log_dens) (Some "lines")
                                      (Some "tozeroy") None None (Some blue_line) None in
              try (append_trace fig trace (i / 3 + 1) (i mod 3 + 1)))
           fig ;;
  let fig := with_layout fig
               (go.update (layout fig) (Some "closest") (Some 600) (Some false)
                          (Some "Available Kernels")) in
  assign (Vars.set_X_plot X_plot) ;;
  assign (Vars.set_X_src X_src) ;;
  assign (Vars.set_fig fig).

(** [format_func(x, loc)], which In [4] defines and nothing calls: the label
    of a tick at [x] bandwidths, ['%ih' % x] being [str(int(x))] followed by
    ['h']. *)
Definition format_func (x loc : Py.num) : option string :=
  let eq (v : Z) :=
    match x with
    | Py.Int z => z =? v
    | Py.Float f => PrimFloat.eqb f (Py.float_of_int v)
    end in
  if eq 0 then Some "0"
  else if eq 1 then Some "h"
  else if eq (-1) then Some "-h"
  else
    option_map (fun z => String.append (Py.str_of_int z) "h")
               match x with
               | Py.Int z => Some z
               | Py.Float f => Py.int_of_float f
               end.

(** In [5] and In [7]: [py.iplot(fig)]. *)
Definition cell_show : nb unit :=
  fig <- name_ Vars.fig ;;
  iplot fig.

(** In [6]: Plot a 1D density example. *)
Definition cell_density : nb unit :=
  let N := 100 in
  seed 1 ;;
  let data := [] in
  a <- normal 0 1 (Py.Float (0.3 * Py.float_of_int N)) ;;
  b <- normal 5 1 (Py.Float (0.7 * Py.float_of_int N)) ;;
  let X := newaxis (concatenate a b) in
  let X_plot := newaxis (linspace (-5) 10 1000) in
  g <- try (column0 X_plot) ;;
  g' <- try (column0 X_plot) ;;
  true_dens <- try (array_add (scalar_mul 0.3 (pdf 0 1 g))
                              (scalar_mul 0.7 (pdf 5 1 g'))) ;;
  g <- try (column0 X_plot) ;;
  let trace1 := go.Scatter g true_dens (Some "lines") (Some "tozeroy")
                           (Some "input distribution") None
                           (Some {| line_color := Some "black"; line_width := Some 2;
                                    line_dash := None |})
                           None in
  let data := data ++ [trace1] in
  data <- for_each ["gaussian"; "tophat"; "epanechnikov"]
            (fun data kernel =>
               kde <- new_KernelDensity (Some kernel) (Some 0.5%float) ;;
               let log_dens := score_samples (fit kde X) X_plot in
               g <- try (column0 X_plot) ;;
               nm <- try (Py.format "kernel = '{0}'" [Py.VStr kernel]) ;;
               let trace2 := go.Scatter g (np_exp log_dens) (Some "lines") None
                                        (Some nm) None
                                        (Some {| line_color := None; line_width := Some 2;
                                                 line_dash := Some "dash" |})
                                        None in
               ret (data ++ [trace2]))
            data ;;
  x0 <- try (column0 X) ;;
  u <- random (Py.Int (shape0 X)) ;;
  let trace3 := go.Scatter x0 (scalar_sub (- 0.005) (scalar_mul 0.01 u))
                           (Some "markers") None None (Some false) None
                           (Some {| marker_color := Some "black"; marker_line := None |}) in
  let data := data ++ [trace3] in
  txt <- try (Py.format "N={0} points" [Py.VInt N]) ;;
  let layout :=
    {| annotations := [ {| text := txt; at_ := AtPoint 6 0.38; showarrow := false |} ];
       axes := [("xaxis", {| axis_title := None; zeroline := Some false |})];
       hovermode := Some "closest"; height := None; layout_showlegend := None; title := None |} in
  let fig := mkFigure data layout in
  assign (Vars.set_N N) ;;
  assign (Vars.set_X X) ;;
  assign (Vars.set_X_plot X_plot) ;;
  assign (Vars.set_true_dens true_dens) ;;
  assign (Vars.set_fig fig).

(** The double-quote character, for the HTML below. *)
Definition dq : string := String (ascii_of_nat 34) EmptyString.

Definition fonts_link : string :=
  String.concat dq
    ["<link href=";
     "//fonts.googleapis.com/css?family=Open+Sans:600,400,300,200|Inconsolata|Ubuntu+Mono:400,700";
     " rel="; "stylesheet"; " type="; "text/css"; " />"].

Definition css_link : string :=
  String.concat dq
    ["<link rel="; "stylesheet"; " type="; "text/css"; " href=";
     "http://help.plot.ly/documentation/all_static/css/ipython-notebook-custom.css";
     ">"].

(** The last cell: style sheets, then the notebook is published. *)
Definition pip_install : event :=
  Shell "pip install git+https://github.com/plotly/publisher.git --upgrade".

Definition publish : event :=
  Publish
    ["kde-1d.ipynb"; "scikit-learn/plot-kde-1d/";
     "Simple 1D Kernel Density Estimation | plotly"; " "]
    [("title", Py.VStr "Simple 1D Kernel Density Estimation | plotly");
     ("name", Py.VStr "Simple 1D Kernel Density Estimation");
     ("has_thumbnail", Py.VStr "true");
     ("thumbnail", Py.VStr "thumbnail/kde.jpg");
     ("language", Py.VStr "scikit-learn");
     ("page_type", Py.VStr "example_index");
     ("display_as", Py.VStr "nearest_neighbors");
     ("order", Py.VInt 6);
     ("ipynb", Py.VStr "~Diksha_Gabha/3477")].

Definition cell_publish : nb unit :=
  emit (DisplayHTML fonts_link) ;;
  emit (DisplayHTML css_link) ;;
  emit pip_install ;;
  emit publish.

(** The cells in the order the notebook lists and runs them. *)
Definition notebook : nb unit :=
  cell_version ;;
  cell_progression ;;
  cell_kernels ;;
  cell_show ;;
  cell_density ;;
  cell_show ;;
  cell_publish.

(** A fresh interpreter: no name is bound, nothing was output, and the
    generator is in whatever state [r] it started in. *)
Definition fresh (r : rng) : World :=
  {| np_random := r; globals := Vars.unbound; log := [] |}.

(** The events and the final state of a computation run from [w]. *)
Definition run {A} (c : nb A) (w : World) : option World :=
  option_map snd (c w).

(** The charts among the events. *)
Fixpoint charts (l : list event) : list Figure :=
  match l with
  | [] => []
  | IPlot f :: rest => f :: charts rest
  | _ :: rest => charts rest
  end.

(** The keyword arguments of the estimator constructions among the
    events. *)
Fixpoint estimator_calls (l : list event) : list (option string * option float) :=
  match l with
  | [] => []
  | NewKernelDensity k h :: rest => (k, h) :: estimator_calls rest
  | _ :: rest => estimator_calls rest
  end.

End Notebook.

(* ================================================================== *)
(** ** The two-component mixture, as the specification words it *)
(* ================================================================== *)

Section Mixture.

Context {np : NumPy}.

(** A component of a Gaussian mixture: its weight and the mean and standard
    deviation of its normal distribution. *)
Record component := {
  weight : float;
  mean : float;
  sd : float
}.

(** 0.3 of N(0, 1) and 0.7 of N(5, 1). *)
Definition the_mixture : component * component :=
  ({| weight := 0.3; mean := 0; sd := 1 |},
   {| weight := 0.7; mean := 5; sd := 1 |}).

(** The density of the mixture at a point. *)
Definition mixture_pdf (m : component * component) (v : float) : float :=
  (weight (fst m) * norm_pdf (mean (fst m)) (sd (fst m)) v
   + weight (snd m) * norm_pdf (mean (snd m)) (sd (snd m)) v)%float.

(** A sample of the mixture for a nominal size [N]: [weight * N] draws of
    each component, the first component's draws first, from the generator
    in state [r]. *)
Definition mixture_sample (m : component * component) (N : Z) (r : rng)
  : option array :=
  match as_length (Py.Float (weight (fst m) * Py.float_of_int N)),
        as_length (Py.Float (weight (snd m) * Py.float_of_int N)) with
  | Some n1, Some n2 =>
      let d1 := draws (draw_normal (mean (fst m)) (sd (fst m))) n1 r in
      let d2 := draws (draw_normal (mean (snd m)) (sd (snd m))) n2 (snd d1) in
      Some (fst d1 ++ fst d2)
  | _, _ => None
  end.

(** The density curve of an estimator with the given parameters, fitted to
    [X], over the grid [G]: the exponential of its log-density at each
    grid row. *)
Definition kde_curve {sk : SkLearn} (k : string) (h : float) (X G : matrix) : array :=
  np_exp (score_samples (fit {| kernel := k; bandwidth := h |} X) G).

(** A value is non-negative (which a NaN is not). *)
Definition nonneg (v : float) : Prop := PrimFloat.leb 0 v = true.

End Mixture.

(* ================================================================== *)
(** ** A reference implementation of the interfaces *)
(* ================================================================== *)

(** A small implementation in binary64 arithmetic, to run the notebook on:
    a linear congruential generator with a sum-of-twelve-uniforms normal
    draw, a compound-interest exponential with a Newton logarithm, and the
    textbook kernel density estimate.  It stands in for the libraries where a
    run on concrete values is wanted; nothing proved for every
    implementation of the interfaces depends on it. *)
Module Ref.

Local Open Scope float_scope.

Definition next (r : Z) : Z := ((1103515245 * r + 12345) mod 2147483648)%Z.

Definition draw_uniform (r : Z) : float * Z :=
  let r' := next r in (Py.float_of_int r' / 2147483648, r').

Fixpoint sum_uniform (n : nat) (r : Z) : float * Z :=
  match n with
  | O => (0, r)
  | S n' =>
      let d := draw_uniform r in
      let s := sum_uniform n' (snd d) in
      (fst d + fst s, snd s)
  end.

Definition draw_normal (loc scale : float) (r : Z) : float * Z :=
  let s := sum_uniform 12 r in (loc + scale * (fst s - 6), snd s).

Fixpoint square_times (n : nat) (v : float) : float :=
  match n with
  | O => v
  | S n' => let u := square_times n' v in u * u
  end.

(** (1 + v/1024)^1024, zero below the range of binary64 and kept
    non-negative. *)
Definition exp (v : float) : float :=
  let p := if PrimFloat.ltb v (-745) then 0 else square_times 10 (1 + v / 1024) in
  if PrimFloat.leb 0 p then p else 0.

Fixpoint newton_ln (n : nat) (v y : float) : float :=
  match n with
  | O => y
  | S n' => let e := exp y in newton_ln n' v (y + 2 * (v - e) / (v + e))
  end.

(** The logarithm, minus infinity at zero. *)
Definition ln (v : float) : float :=
  if PrimFloat.leb v 0 then neg_infinity else newton_ln 20 v 0.

Definition linspace (a b : float) (n : Z) : array :=
  map (fun i => a + Py.float_of_int (Z.of_nat i) * ((b - a) / Py.float_of_int (n - 1)))
      (seq 0 (Z.to_nat n)).

Definition norm_pdf (loc scale v : float) : float :=
  let z := (v - loc) / scale in
  exp (- (z * z) / 2) / (scale * 2.5066282746310002).

(** The cosine by its series up to the eighth power, for arguments
    between -pi/2 and pi/2. *)
Definition cos_series (t : float) : float :=
  let q := t * t in
  1 - q / 2 * (1 - q / 12 * (1 - q / 30 * (1 - q / 56))).

(** The six kernels at bandwidth 1. *)
Definition kernel_at (k : string) (u : float) : float :=
  let a := PrimFloat.abs u in
  if String.eqb k "gaussian" then exp (- (u * u) / 2) / 2.5066282746310002
  else if String.eqb k "exponential" then exp (- a) / 2
  else if PrimFloat.ltb a 1 then
    if String.eqb k "tophat" then 0.5
    else if String.eqb k "epanechnikov" then 0.75 * (1 - u * u)
    else if String.eqb k "linear" then 1 - a
    else (* cosine: (pi/4) cos(pi u / 2) *)
      0.78539816339744828 * cos_series (1.5707963267948966 * u)
  else 0.

Definition fitted : Type := KernelDensity * matrix.

Definition fit (kde : KernelDensity) (X : matrix) : fitted := (kde, X).

Definition density (m : fitted) (g : float) : float :=
  let h := bandwidth (fst m) in
  fold_right (fun row acc => kernel_at (kernel (fst m)) ((g - hd 0 row) / h) + acc)
             0 (snd m)
  / (Py.float_of_int (Z.of_nat (List.length (snd m))) * h).

Definition score (m : fitted) (row : list float) : float :=
  let v := ln (density m (hd 0 row)) in
  if PrimFloat.is_nan v then neg_infinity else v.

Definition score_samples (m : fitted) (G : matrix) : array := map (score m) G.

End Ref.

(* ================================================================== *)
(** ** The values the cells compute *)
(* ================================================================== *)

(** The samples, grids and charts of the three figures written out as
    values, against which the cells are run below. *)
Section Values.

Context {np : NumPy} {sk : SkLearn}.

Import Plotly.

(** [n1] draws of N(0, 1) followed by [n2] draws of N(5, 1) from the
    generator seeded with 1, as a column, and the generator afterwards. *)
Definition first_draws (n1 : nat) : array * rng :=
  draws (draw_normal 0 1) n1 (seeded 1).

Definition second_draws (n1 n2 : nat) : array * rng :=
  draws (draw_normal 5 1) n2 (snd (first_draws n1)).

Definition sample (n1 n2 : nat) : matrix :=
  newaxis (concatenate (fst (first_draws n1)) (fst (second_draws n1 n2))).

(** The 1000-point grid between [a] and [b], as a column. *)
Definition grid_column (a b : float) : matrix := newaxis (linspace a b 1000).

(** A filled density curve of the first two figures. *)
Definition filled_curve (g y : array) : Trace :=
  go.Scatter g y (Some "lines") (Some "tozeroy") None None (Some blue_line) None.

Definition subplot_title (t : string) (row col : Z) : Annotation :=
  {| text := t; at_ := OverSubplot row col; showarrow := false |}.

Definition titled (t : string) : Axis :=
  {| axis_title := Some t; zeroline := None |}.

(** The chart of "Plot the Progression of Histograms to Kernels". *)
Definition progression_chart : Figure :=
  let X := sample 6 14 in
  let G := grid_column (-5) 10 in
  let x0 := concatenate (fst (first_draws 6)) (fst (second_draws 6 14)) in
  let g := linspace (-5) 10 1000 in
  {| data :=
       [ set_axes (go.Histogram x0 10 blue_marker) 1;
         set_axes (go.Histogram x0 30 blue_marker) 2;
         set_axes (filled_curve g (kde_curve "tophat" 0.75 X G)) 3;
         set_axes (filled_curve g (kde_curve "gaussian" 0.75 X G)) 4 ];
     layout :=
       {| annotations :=
            [ subplot_title "Histogram" 1 1;
              subplot_title "Histogram, bins shifted" 1 2;
              subplot_title "Tophat Kernel Density" 2 1;
              subplot_title "Gaussian Kernel Density" 2 2 ];
          axes :=
            [ ("xaxis1", no_axis); ("yaxis1", titled "Normalized Density");
              ("xaxis2", no_axis); ("yaxis2", no_axis);
              ("xaxis3", no_axis); ("yaxis3", titled "Normalized Density");
              ("xaxis4", no_axis); ("yaxis4", no_axis) ];
          hovermode := Some "closest"; height := Some 600;
          layout_showlegend := Some false; title := None |};
     grid := Some (2, 2) |}.

(** The curve of the kernel gallery for the kernel of index [i]: the
    estimator with that kernel and the default bandwidth, fitted to the
    single point 0, bound to the axes of cell ([i/3 + 1], [i mod 3 + 1]). *)
Definition gallery_curve (i : Z) (k : string) : Trace :=
  set_axes
    (filled_curve (linspace (-6) 6 1000)
                  (kde_curve k 1 zeros_1_1 (grid_column (-6) 6)))
    (cell_number 3 (i / 3 + 1) (i mod 3 + 1)).

(** The chart of "Plot all available kernels". *)
Definition kernels_chart : Figure :=
  {| data := map (fun ik => gallery_curve (fst ik) (snd ik)) (enumerate VALID_KERNELS);
     layout :=
       {| annotations :=
            map (fun ik => subplot_title (snd ik) (fst ik / 3 + 1) (fst ik mod 3 + 1))
                (enumerate VALID_KERNELS);
          axes := grid_axes 6;
          hovermode := Some "closest"; height := Some 600;
          layout_showlegend := Some false; title := Some "Available Kernels" |};
     grid := Some (2, 3) |}.

(** The reference curve of the third figure. *)
Definition input_distribution : array :=
  map (fun v => (0.3 * norm_pdf 0 1 v + 0.7 * norm_pdf 5 1 v)%float)
      (linspace (-5) 10 1000).

(** The generator after the third figure's sample, and the [n] uniform
    draws taken from it for the marks under the curves. *)
Definition rug_draws (n : nat) : array * rng :=
  draws draw_uniform n (snd (second_draws 30 70)).

Definition dashed_curve (k : string) : Trace :=
  go.Scatter (linspace (-5) 10 1000)
             (kde_curve k 0.5 (sample 30 70) (grid_column (-5) 10))
             (Some "lines") None
             (Some (String.append "kernel = '" (String.append k "'"))) None
             (Some {| line_color := None; line_width := Some 2;
                      line_dash := Some "dash" |})
             None.

(** The chart of "Plot a 1D density example". *)
Definition density_chart : Figure :=
  {| data :=
       [ go.Scatter (linspace (-5) 10 1000) input_distribution
                    (Some "lines") (Some "tozeroy") (Some "input distribution") None
                    (Some {| line_color := Some "black"; line_width := Some 2;
                             line_dash := None |})
                    None;
         dashed_curve "gaussian";
         dashed_curve "tophat";
         dashed_curve "epanechnikov";
         go.Scatter (concatenate (fst (first_draws 30)) (fst (second_draws 30 70)))
                    (scalar_sub (- 0.005) (scalar_mul 0.01 (fst (rug_draws 100))))
                    (Some "markers") None None (Some false) None
                    (Some {| marker_color := Some "black"; marker_line := None |}) ];
     layout :=
       {| annotations :=
            [ {| text := "N=100 points"; at_ := AtPoint 6 0.38; showarrow := false |} ];
          axes := [("xaxis", {| axis_title := None; zeroline := Some false |})];
          hovermode := Some "closest"; height := None; layout_showlegend := None;
          title := None |};
     grid := None |}.

(** The estimator constructions of the three figures. *)
Definition progression_estimators : list event :=
  [ NewKernelDensity (Some "tophat") (Some 0.75%float);
    NewKernelDensity (Some "gaussian") (Some 0.75%float) ].

Definition kernels_estimators : list event :=
  map (fun k => NewKernelDensity (Some k) None) VALID_KERNELS.

Definition density_estimators : list event :=
  map (fun k => NewKernelDensity (Some k) (Some 0.5%float))
      ["gaussian"; "tophat"; "epanechnikov"].

(** Everything a run of the notebook does, in order. *)
Definition notebook_events : list event :=
  [Result sklearn_version]
  ++ progression_estimators ++ [IPlot progression_chart]
  ++ kernels_estimators ++ [IPlot kernels_chart]
  ++ density_estimators ++ [IPlot density_chart]
  ++ [DisplayHTML fonts_link; DisplayHTML css_link; pip_install; publish].

(** The global names after the last cell. *)
Definition notebook_globals : Vars.t :=
  {| Vars.N := Some 100;
     Vars.X := Some (sample 30 70);
     Vars.X_plot := Some (grid_column (-5) 10);
     Vars.X_src := Some zeros_1_1;
     Vars.true_dens := Some input_distribution;
     Vars.fig := Some density_chart |}.

End Values.

(* ------------------------------------------------------------------ *)
(** *** What is read off a run *)
(* ------------------------------------------------------------------ *)

(** A call that passes both a kernel name and a bandwidth. *)
Definition passes_both (call : option string * option float) : Prop :=
  fst call <> None /\ snd call <> None.

(** The keyword arguments of the estimator calls of a run, in order. *)
Definition notebook_calls : list (option string * option float) :=
  [ (Some "tophat", Some 0.75%float); (Some "gaussian", Some 0.75%float) ]
  ++ map (fun k => (Some k, None))
         ["gaussian"; "tophat"; "epanechnikov"; "exponential"; "linear"; "cosine"]
  ++ map (fun k => (Some k, Some 0.5%float)) ["gaussian"; "tophat"; "epanechnikov"].

(** An event that sends a chart. *)
Definition is_chart (e : event) : bool :=
  match e with
  | IPlot _ => true
  | _ => false
  end.

Definition is_scatter (t : Plotly.Trace) : bool :=
  match Plotly.ttype t with
  | Plotly.Scatter => true
  | Plotly.Histogram => false
  end.

(** The scatter traces of a list of charts, in order. *)
Definition scatters (fs : list Plotly.Figure) : list Plotly.Trace :=
  flat_map (fun f => filter is_scatter (Plotly.data f)) fs.

(** The lengths of a trace's x and y arrays. *)
Definition shape (t : Plotly.Trace) : nat * option nat :=
  (List.length (Plotly.x t), option_map (@List.length float) (Plotly.y t)).

(** A trace whose x and y arrays pair up. *)
Definition paired (t : Plotly.Trace) : Prop :=
  exists ys, Plotly.y t = Some ys /\ List.length (Plotly.x t) = List.length ys.

(** A trace that plots a density over the grid [G] of 1000 rows: its x is the
    column [G[:, 0]], and its y is either the curve of an estimator scored on
    that same [G] or the mixture's density at each of those x. *)
Definition over_grid {np : NumPy} {sk : SkLearn} (G : matrix) (t : Plotly.Trace)
  : Prop :=
  column0 G = Some (Plotly.x t)
  /\ List.length G = 1000%nat
  /\ ((exists k h X, Plotly.y t = Some (kde_curve k h X G))
      \/ Plotly.y t = Some (map (mixture_pdf the_mixture) (Plotly.x t))).

(* ================================================================== *)
(** ** The statements with their arguments left open *)
(* ================================================================== *)

(** The integers from [a], [n] of them. *)
Definition zrange (a : Z) (n : nat) : list Z := map (fun i => a + Z.of_nat i) (seq 0 n).

(** A template's literal text before a field is copied as it is. *)
Fixpoint plain (s : string) : bool :=
  match s with
  | EmptyString => true
  | String c rest => negb (Ascii.eqb c "{") && negb (Ascii.eqb c "}") && plain rest
  end.

(** A whole-number tick is labelled alike as a float and as an int. *)
Definition same_label_as_float (z : Z) : bool :=
  match format_func (Py.Float (Py.float_of_int z)) (Py.Int 0),
        format_func (Py.Int z) (Py.Int 0) with
  | Some a, Some b => String.eqb a b
  | _, _ => false
  end.

(** The numbers of draws of the two components for a size [N], as the
    sampling statements compute them, and their sum ([None] where a length
    raises). *)
Definition sample_counts (N : Z) : option (nat * nat) :=
  match as_length (Py.Float (0.3 * Py.float_of_int N)),
        as_length (Py.Float (0.7 * Py.float_of_int N)) with
  | Some n1, Some n2 => Some (n1, n2)
  | _, _ => None
  end.

(** The rows are [N] or one fewer, and [N] only at a multiple of ten. *)
Definition rows_checked (N : Z) : bool :=
  match sample_counts N with
  | Some (n1, n2) =>
      let rows := Z.of_nat (n1 + n2) in
      (N - 1 <=? rows) && (rows <=? N) && implb (rows =? N) (N mod 10 =? 0)
  | None => false
  end.

Definition raises_checked (N : Z) : bool :=
  match sample_counts N with
  | Some _ => false
  | None => true
  end.

Section SampleOfN.

Context {np : NumPy}.

(** The sampling statements of In [3] and In [6] with the size left open:
    [np.random.seed(1)], then
    [X = np.concatenate((np.random.normal(0, 1, 0.3 * N),
                         np.random.normal(5, 1, 0.7 * N)))[:, np.newaxis]]. *)
Definition draw_sample (N : Z) : nb matrix :=
  seed 1 ;;
  a <- normal 0 1 (Py.Float (0.3 * Py.float_of_int N)) ;;
  b <- normal 5 1 (Py.Float (0.7 * Py.float_of_int N)) ;;
  ret (newaxis (concatenate a b)).

End SampleOfN.

(* ------------------------------------------------------------------ *)
(** *** The imported names *)
(* ------------------------------------------------------------------ *)


Section Imports.

Context {np : NumPy} {sk : SkLearn}.









End Imports.

(* ================================================================== *)
(** ** Python scalars: checks *)
(* ================================================================== *)

Example format_n : Py.format "N={0} points" [Py.VInt 100] = Some "N=100 points".
Proof. reflexivity. Qed.
Example format_esc : Py.format "{{{1}}}{0}" [Py.VInt (-3); Py.VStr "k"] = Some "{k}-3".
Proof. reflexivity. Qed.
Example range_ex : Py.range 1 5 2 = Some [1; 3].
Proof. reflexivity. Qed.
Example trunc_ex : map Py.int_of_float [14.5; -2.5; 0.3 * 20; 0.25; infinity]%float
                   = [Some 14; Some (-2); Some 6; Some 0; None].
Proof. vm_compute. reflexivity. Qed.
Example format_func_ex :
  map (fun x => format_func x (Py.Int 0))
      [Py.Float 0; Py.Float 1; Py.Float (-1); Py.Float 2; Py.Float (-4.5); Py.Int 6]
  = [Some "0"; Some "h"; Some "-h"; Some "2h"; Some "-4h"; Some "6h"].
Proof. vm_compute. reflexivity. Qed.
Example foi_ex : Py.float_of_int 20 = 20%float /\ Py.float_of_int (-3) = (-3)%float.
Proof. split; reflexivity. Qed.

(* ================================================================== *)
(** ** Arrays and draws *)
(* ================================================================== *)

Lemma column0_newaxis (a : array) : column0 (newaxis a) = Some a.
Proof.
  induction a as [|v a IH]; simpl; [reflexivity | now rewrite IH].
Qed.

Lemma length_newaxis (a : array) : List.length (newaxis a) = List.length a.
Proof. apply length_map. Qed.

Lemma length_concatenate (a b : array) :
  List.length (concatenate a b) = (List.length a + List.length b)%nat.
Proof. apply length_app. Qed.

Lemma length_draws {R : Type} (one : R -> float * R) (n : nat) (r : R) :
  List.length (fst (draws one n r)) = n.
Proof.
  unfold draws. cbn [fst].
  revert r. induction n as [|n IH]; intros r; simpl; [reflexivity|].
  now rewrite IH.
Qed.

Lemma array_add_map {T : Type} (f g : T -> float) (l : list T) :
  array_add (map f l) (map g l) = Some (map (fun v => (f v + g v)%float) l).
Proof.
  induction l as [|v l IH]; simpl; [reflexivity | now rewrite IH].
Qed.

Lemma as_length_shape0 (m : matrix) : as_length (Py.Int (shape0 m)) = Some (List.length m).
Proof.
  unfold as_length, shape0.
  destruct (Z.ltb_spec (Z.of_nat (List.length m)) 0) as [H|H]; [lia|].
  now rewrite Nat2Z.id.
Qed.

(* ================================================================== *)
(** ** Running a computation one statement at a time *)
(* ================================================================== *)

Section Steps.

Context {np : NumPy} {sk : SkLearn}.
Variables (A B C : Type).

Lemma bind_assoc (c : nb A) (f : A -> nb B) (k : B -> nb C) (w : World) :
  bind (bind c f) k w = bind c (fun a => bind (f a) k) w.
Proof. unfold bind. destruct (c w) as [[a w']|]; reflexivity. Qed.

Lemma ret_step (a : A) (k : A -> nb B) (w : World) : bind (ret a) k w = k a w.
Proof. reflexivity. Qed.

Lemma try_step (o : option A) (a : A) (k : A -> nb B) (w : World) :
  o = Some a -> bind (try o) k w = k a w.
Proof. intros ->. reflexivity. Qed.

Lemma seed_step (n : Z) (k : unit -> nb B) (w : World) :
  bind (seed n) k w
  = k tt {| np_random := seeded n; globals := globals w; log := log w |}.
Proof. reflexivity. Qed.

Lemma draw_step (one : rng -> float * rng) (size : Py.num) (n : nat)
      (k : array -> nb B) (w : World) :
  as_length size = Some n ->
  bind (draw_array one size) k w
  = k (fst (draws one n (np_random w)))
      {| np_random := snd (draws one n (np_random w));
         globals := globals w; log := log w |}.
Proof. intros H. unfold bind, draw_array. now rewrite H. Qed.

Lemma emit_step (e : event) (k : unit -> nb B) (w : World) :
  bind (emit e) k w
  = k tt {| np_random := np_random w; globals := globals w; log := log w ++ [e] |}.
Proof. reflexivity. Qed.

Lemma assign_step (set : Vars.t -> Vars.t) (k : unit -> nb B) (w : World) :
  bind (assign set) k w
  = k tt {| np_random := np_random w; globals := set (globals w); log := log w |}.
Proof. reflexivity. Qed.

Lemma name_step (get : Vars.t -> option A) (a : A) (k : A -> nb B) (w : World) :
  get (globals w) = Some a -> bind (name_ get) k w = k a w.
Proof. intros H. unfold bind, name_. now rewrite H. Qed.

End Steps.

(** Evaluation of a pure step whose result the next statement needs. *)
Ltac pure_eval :=
  lazymatch goal with
  | |- column0 (newaxis _) = _ => apply column0_newaxis
  | |- as_length (Py.Int (shape0 _)) = _ => apply as_length_shape0
  | |- array_add _ _ = _ =>
      unfold scalar_mul, pdf; rewrite !map_map; apply array_add_map
  | |- Plotly.append_trace _ _ _ _ = _ =>
      cbv -[fst snd draws concatenate newaxis np_exp pdf scalar_mul scalar_sub
            seeded draw_normal draw_uniform exp linspace norm_pdf fit score_samples];
      reflexivity
  | |- Plotly.update_axis_title _ _ _ = _ =>
      cbv -[fst snd draws concatenate newaxis np_exp pdf scalar_mul scalar_sub
            seeded draw_normal draw_uniform exp linspace norm_pdf fit score_samples];
      reflexivity
  | |- _ => vm_compute; reflexivity
  end.

(** One statement of the computation at the head of the goal. *)
Ltac nb_step :=
  cbv beta iota zeta delta
    [np_random globals log
     Plotly.with_layout Plotly.with_axes Plotly.mkFigure go.update
     Plotly.data Plotly.layout Plotly.grid Plotly.annotations Plotly.axes
     Plotly.hovermode Plotly.height Plotly.layout_showlegend Plotly.title];
  lazymatch goal with
  | |- context [bind (bind _ _) _ _] => rewrite bind_assoc
  | |- context [bind (ret _) _ _] => rewrite ret_step
  | |- context [bind (try _) _ _] => erewrite try_step by pure_eval
  | |- context [bind (seed _) _ _] => rewrite seed_step
  | |- context [bind (normal _ _ _) _ _] => unfold normal at 1
  | |- context [bind (random _) _ _] => unfold random at 1
  | |- context [bind (draw_array _ _) _ _] => erewrite draw_step by pure_eval
  | |- context [bind (emit _) _ _] => rewrite emit_step
  | |- context [bind (iplot _) _ _] => unfold iplot at 1
  | |- context [bind (assign _) _ _] => rewrite assign_step
  | |- context [bind (name_ _) _ _] => erewrite name_step by reflexivity
  | |- context [bind (new_KernelDensity _ _) _ _] => unfold new_KernelDensity at 1
  | |- context [bind (for_each ?l _ _) _ _] =>
      let l' := eval vm_compute in l in
      change l with l'; cbn [for_each]
  | |- context [bind cell_version _ _] => unfold cell_version at 1
  | |- context [bind cell_progression _ _] => unfold cell_progression at 1
  | |- context [bind cell_kernels _ _] => unfold cell_kernels at 1
  | |- context [bind cell_show _ _] => unfold cell_show at 1
  | |- context [bind cell_density _ _] => unfold cell_density at 1
  end.

(** A whole computation: every statement, then the last one. *)
Ltac nb_run :=
  repeat nb_step;
  cbv beta iota zeta delta
    [iplot emit assign cell_publish bind np_random globals log
     Plotly.with_layout Plotly.with_axes Plotly.mkFigure go.update
     Plotly.data Plotly.layout Plotly.grid Plotly.annotations Plotly.axes
     Plotly.hovermode Plotly.height Plotly.layout_showlegend Plotly.title].

(** Both sides written out, the libraries' operations and the draws left as
    they are. *)
Ltac same_value :=
  cbv -[fst snd draws concatenate newaxis np_exp pdf scalar_mul scalar_sub
        seeded draw_normal draw_uniform exp linspace norm_pdf fit score_samples
        sklearn_version app];
  reflexivity.

(* ================================================================== *)
(** ** What each cell does *)
(* ================================================================== *)

Section Effects.

Context {np : NumPy} {sk : SkLearn}.

Lemma version_effect (w : World) :
  cell_version w
  = Some (tt, {| np_random := np_random w; globals := globals w;
                 log := log w ++ [Result sklearn_version] |}).
Proof. reflexivity. Qed.

Lemma progression_effect (w : World) :
  cell_progression w
  = Some (tt, {| np_random := snd (second_draws 6 14);
                 globals :=
                   Vars.set_fig progression_chart
                     (Vars.set_X_plot (grid_column (-5) 10)
                        (Vars.set_X (sample 6 14) (Vars.set_N 20 (globals w))));
                 log := log w ++ progression_estimators ++ [IPlot progression_chart] |}).
Proof.
  destruct w as [r g l]. unfold cell_progression.
  nb_run. rewrite <- !app_assoc. same_value.
Qed.

Lemma kernels_effect (w : World) :
  cell_kernels w
  = Some (tt, {| np_random := np_random w;
                 globals :=
                   Vars.set_fig kernels_chart
                     (Vars.set_X_src zeros_1_1
                        (Vars.set_X_plot (grid_column (-6) 6) (globals w)));
                 log := log w ++ kernels_estimators |}).
Proof.
  destruct w as [r g l]. unfold cell_kernels.
  nb_run. rewrite <- !app_assoc. same_value.
Qed.

Lemma show_effect (w : World) (f : Plotly.Figure) :
  Vars.fig (globals w) = Some f ->
  cell_show w
  = Some (tt, {| np_random := np_random w; globals := globals w;
                 log := log w ++ [IPlot f] |}).
Proof. intros H. unfold cell_show, bind, name_. now rewrite H. Qed.

Lemma length_sample (n1 n2 : nat) : List.length (sample n1 n2) = (n1 + n2)%nat.
Proof.
  unfold sample, first_draws, second_draws.
  now rewrite length_newaxis, length_concatenate, !length_draws.
Qed.

Lemma density_effect (w : World) :
  cell_density w
  = Some (tt, {| np_random := snd (rug_draws 100);
                 globals :=
                   Vars.set_fig density_chart
                     (Vars.set_true_dens input_distribution
                        (Vars.set_X_plot (grid_column (-5) 10)
                           (Vars.set_X (sample 30 70) (Vars.set_N 100 (globals w)))));
                 log := log w ++ density_estimators |}).
Proof.
  destruct w as [r g l]. unfold cell_density.
  nb_run. rewrite <- !app_assoc.
  rewrite length_newaxis, length_concatenate, !length_draws. same_value.
Qed.

Lemma publish_effect (w : World) :
  cell_publish w
  = Some (tt, {| np_random := np_random w; globals := globals w;
                 log := log w ++ [DisplayHTML fonts_link; DisplayHTML css_link;
                                  pip_install; publish] |}).
Proof.
  destruct w as [r g l]. unfold cell_publish, bind, emit. cbn [np_random globals log].
  now rewrite <- !app_assoc.
Qed.

End Effects.

Section Run.

Context {np : NumPy} {sk : SkLearn}.

Lemma bind_known {A B : Type} (c : nb A) (k : A -> nb B) (w w' : World) (a : A) :
  c w = Some (a, w') -> bind c k w = k a w'.
Proof. intros H. unfold bind. now rewrite H. Qed.

(** The whole notebook, from any state of the interpreter: it runs to the
    end, every global it reads is one it has bound, and its events and
    final names do not depend on the state it started in. *)
Lemma notebook_effect (w : World) :
  notebook w
  = Some (tt, {| np_random := snd (rug_draws 100);
                 globals := notebook_globals;
                 log := log w ++ notebook_events |}).
Proof.
  destruct w as [r g l]. unfold notebook.
  erewrite bind_known by apply version_effect.
  erewrite bind_known by apply progression_effect.
  erewrite bind_known by apply kernels_effect.
  erewrite bind_known by (apply show_effect; reflexivity).
  erewrite bind_known by apply density_effect.
  erewrite bind_known by (apply show_effect; reflexivity).
  rewrite publish_effect.
  cbn [np_random globals log]. rewrite <- !app_assoc.
  reflexivity.
Qed.

Lemma notebook_runs (r : rng) :
  run notebook (fresh r)
  = Some {| np_random := snd (rug_draws 100);
            globals := notebook_globals;
            log := notebook_events |}.
Proof. unfold run. now rewrite notebook_effect. Qed.

End Run.

(* ================================================================== *)
(** ** The reference implementation meets the interfaces *)
(* ================================================================== *)

Lemma ref_linspace_length (a b : float) (n : Z) :
  0 <= n -> List.length (Ref.linspace a b n) = Z.to_nat n.
Proof. intros _. unfold Ref.linspace. now rewrite length_map, length_seq. Qed.

Lemma ref_exp_nonneg (v : float) :
  PrimFloat.is_nan v = false -> PrimFloat.leb 0 (Ref.exp v) = true.
Proof.
  intros _. unfold Ref.exp.
  match goal with
  | |- PrimFloat.leb 0 (if PrimFloat.leb 0 ?p then _ else _) = true =>
      destruct (PrimFloat.leb 0 p) eqn:E
  end.
  - exact E.
  - reflexivity.
Qed.

Lemma ref_score_samples_length (m : Ref.fitted) (G : matrix) :
  List.length (Ref.score_samples m G) = List.length G.
Proof. apply length_map. Qed.

Lemma ref_score_not_nan (m : Ref.fitted) (row : list float) :
  PrimFloat.is_nan (Ref.score m row) = false.
Proof.
  unfold Ref.score.
  destruct (PrimFloat.is_nan (Ref.ln (Ref.density m (hd 0%float row)))) eqn:E.
  - reflexivity.
  - exact E.
Qed.

Lemma ref_score_samples_not_nan (m : Ref.fitted) (G : matrix) :
  Forall (fun v => PrimFloat.is_nan v = false) (Ref.score_samples m G).
Proof.
  unfold Ref.score_samples. apply Forall_map, Forall_forall.
  intros row _. apply ref_score_not_nan.
Qed.

Definition ref_numpy : NumPy :=
  {| rng := Z;
     seeded := fun n => n;
     draw_normal := Ref.draw_normal;
     draw_uniform := Ref.draw_uniform;
     exp := Ref.exp;
     linspace := Ref.linspace;
     norm_pdf := Ref.norm_pdf;
     linspace_length := ref_linspace_length;
     exp_nonneg := ref_exp_nonneg |}.

Definition ref_sklearn : SkLearn :=
  {| sklearn_version := "0.18.1";
     fitted := Ref.fitted;
     fit := Ref.fit;
     score_samples := Ref.score_samples;
     score_samples_length := ref_score_samples_length;
     score_samples_not_nan := ref_score_samples_not_nan |}.

(** The reference generator does depend on its state: the same two draws
    from two states differ, so an unseeded sample is not reproducible. *)
Example unseeded_draws_differ :
  fst (draws (Ref.draw_normal 0 1) 2 0) <> fst (draws (Ref.draw_normal 0 1) 2 1).
Proof.
  intros H. apply (f_equal (fun l => PrimFloat.eqb (hd 0%float l) (-0.82319477666169405)%float)) in H.
  vm_compute in H. discriminate H.
Qed.

(* ================================================================== *)
(** ** The sample arrays *)
(* ================================================================== *)

(** The sample counts are binary64 products, truncated where NumPy takes
    them as lengths.  For the two values of [N] in the notebook the products
    are whole numbers; the product [0.7 * 20] is one only because the tie
    between 14 and its predecessor rounds to even. *)
Example counts_20 :
  (0.3 * Py.float_of_int 20 = 6)%float /\ (0.7 * Py.float_of_int 20 = 14)%float.
Proof. split; reflexivity. Qed.

Example counts_100 :
  (0.3 * Py.float_of_int 100 = 30)%float /\ (0.7 * Py.float_of_int 100 = 70)%float.
Proof. split; reflexivity. Qed.

(** For other sizes the truncation loses rows: a nominal 25 gives 24. *)
Example counts_25 :
  as_length (Py.Float (0.3 * Py.float_of_int 25)) = Some 7%nat
  /\ as_length (Py.Float (0.7 * Py.float_of_int 25)) = Some 17%nat.
Proof. split; vm_compute; reflexivity. Qed.

Section Sample.

Context {np : NumPy} {sk : SkLearn}.

Lemma mixture_sample_20 :
  mixture_sample the_mixture 20 (seeded 1)
  = Some (concatenate (fst (first_draws 6)) (fst (second_draws 6 14))).
Proof.
  unfold mixture_sample, the_mixture, concatenate, first_draws, second_draws.
  cbn [fst snd weight mean sd].
  replace (as_length (Py.Float (0.3 * Py.float_of_int 20)))
    with (Some 6%nat) by (vm_compute; reflexivity).
  replace (as_length (Py.Float (0.7 * Py.float_of_int 20)))
    with (Some 14%nat) by (vm_compute; reflexivity).
  reflexivity.
Qed.

Lemma mixture_sample_100 :
  mixture_sample the_mixture 100 (seeded 1)
  = Some (concatenate (fst (first_draws 30)) (fst (second_draws 30 70))).
Proof.
  unfold mixture_sample, the_mixture, concatenate, first_draws, second_draws.
  cbn [fst snd weight mean sd].
  replace (as_length (Py.Float (0.3 * Py.float_of_int 100)))
    with (Some 30%nat) by (vm_compute; reflexivity).
  replace (as_length (Py.Float (0.7 * Py.float_of_int 100)))
    with (Some 70%nat) by (vm_compute; reflexivity).
  reflexivity.
Qed.

(** C1.  In each of the two cells that sample data, from any state of the
    interpreter, the array [X] the cell binds is the column of the
    mixture's sample for the cell's [N] drawn from the generator seeded
    with 1 (0.3 * N draws of N(0, 1), then 0.7 * N draws of N(5, 1), the
    counts being float products), and it has exactly [N] rows: 20 in the
    first figure's cell and 100 in the third's. *)
Theorem sample_has_N_rows (w : World) :
  (exists w' a,
      run cell_progression w = Some w'
      /\ Vars.N (globals w') = Some 20
      /\ mixture_sample the_mixture 20 (seeded 1) = Some a
      /\ Vars.X (globals w') = Some (newaxis a)
      /\ List.length (newaxis a) = 20%nat)
  /\ (exists w' a,
         run cell_density w = Some w'
         /\ Vars.N (globals w') = Some 100
         /\ mixture_sample the_mixture 100 (seeded 1) = Some a
         /\ Vars.X (globals w') = Some (newaxis a)
         /\ List.length (newaxis a) = 100%nat).
Proof.
  split.
  - exists {| np_random := snd (second_draws 6 14);
              globals :=
                Vars.set_fig progression_chart
                  (Vars.set_X_plot (grid_column (-5) 10)
                     (Vars.set_X (sample 6 14) (Vars.set_N 20 (globals w))));
              log := log w ++ progression_estimators ++ [IPlot progression_chart] |}.
    exists (concatenate (fst (first_draws 6)) (fst (second_draws 6 14))).
    split; [unfold run; rewrite progression_effect; reflexivity|].
    split; [reflexivity|].
    split; [apply mixture_sample_20|].
    split; [reflexivity|].
    apply (length_sample 6 14).
  - exists {| np_random := snd (rug_draws 100);
              globals :=
                Vars.set_fig density_chart
                  (Vars.set_true_dens input_distribution
                     (Vars.set_X_plot (grid_column (-5) 10)
                        (Vars.set_X (sample 30 70) (Vars.set_N 100 (globals w)))));
              log := log w ++ density_estimators |}.
    exists (concatenate (fst (first_draws 30)) (fst (second_draws 30 70))).
    split; [unfold run; rewrite density_effect; reflexivity|].
    split; [reflexivity|].
    split; [apply mixture_sample_100|].
    split; [reflexivity|].
    apply (length_sample 30 70).
Qed.

End Sample.

(* ================================================================== *)
(** ** The estimator calls *)
(* ================================================================== *)

Lemma estimator_calls_of_events {np : NumPy} {sk : SkLearn} :
  estimator_calls notebook_events = notebook_calls.
Proof. reflexivity. Qed.

(** C2, as stated, fails: on the reference implementation, from generator
    state 0, the notebook runs and not every estimator call passes both a
    kernel name and a bandwidth (the gallery's do not pass a bandwidth). *)
Lemma gallery_calls_pass_no_bandwidth :
  exists w',
    @run ref_numpy unit (@notebook ref_numpy ref_sklearn) (@fresh ref_numpy 0) = Some w'
    /\ ~ Forall passes_both (estimator_calls (@log ref_numpy w')).
Proof.
  eexists. split; [apply (@notebook_runs ref_numpy ref_sklearn)|].
  cbn [log]. rewrite estimator_calls_of_events.
  intros H. apply Forall_forall with (x := (Some "gaussian", @None float)) in H.
  - destruct H as [_ H]. now apply H.
  - unfold notebook_calls. cbn. auto.
Qed.

(** C2, amended.  From any generator state the notebook runs, and its
    estimator calls are, in order: the two of the first figure with a kernel
    name and bandwidth 0.75; the six of the kernel gallery with a kernel name
    and no bandwidth argument, for which the estimator takes its default 1.0;
    the three of the third figure with a kernel name and bandwidth 0.5.  So
    every call passes a kernel name, and exactly the gallery's pass no
    bandwidth. *)
Theorem estimator_calls_of_notebook {np : NumPy} {sk : SkLearn} (r : rng) :
  exists w',
    run notebook (fresh r) = Some w'
    /\ estimator_calls (log w') = notebook_calls
    /\ Forall (fun call => fst call <> None) notebook_calls
    /\ filter (fun call => match snd call with None => true | Some _ => false end)
              notebook_calls
       = map (fun k => (Some k, None))
             ["gaussian"; "tophat"; "epanechnikov"; "exponential"; "linear"; "cosine"]
    /\ Forall (fun k => estimator_params (Some k) None
                        = Some {| kernel := k; bandwidth := 1 |})
              ["gaussian"; "tophat"; "epanechnikov"; "exponential"; "linear"; "cosine"].
Proof.
  eexists. split; [apply notebook_runs|].
  split; [apply estimator_calls_of_events|].
  split; [|split].
  - unfold notebook_calls. cbn [map app].
    repeat constructor; discriminate.
  - reflexivity.
  - repeat constructor.
Qed.

(* ================================================================== *)
(** ** The charts *)
(* ================================================================== *)

Section Charts.

Context {np : NumPy} {sk : SkLearn}.

Import Plotly.

Lemma charts_of_events :
  charts notebook_events = [progression_chart; kernels_chart; density_chart].
Proof. reflexivity. Qed.

Lemma length_grid_column (a b : float) : List.length (grid_column a b) = 1000%nat.
Proof.
  unfold grid_column. rewrite length_newaxis, linspace_length by lia. reflexivity.
Qed.

Lemma length_kde_curve (k : string) (h : float) (X G : matrix) :
  List.length (kde_curve k h X G) = List.length G.
Proof.
  unfold kde_curve, np_exp. now rewrite length_map, score_samples_length.
Qed.

Lemma kde_curve_nonneg (k : string) (h : float) (X G : matrix) :
  Forall nonneg (kde_curve k h X G).
Proof.
  unfold kde_curve, np_exp. apply Forall_map.
  eapply Forall_impl; [|apply score_samples_not_nan].
  intros v Hv. now apply exp_nonneg.
Qed.

(** C3.  From any generator state the notebook runs and sends three
    charts.  The y-values of their traces are: in the first, none for the
    two histograms and the tophat and gaussian curves; in the second, the
    curves of the six kernels; in the third, the input distribution, the
    gaussian, tophat and epanechnikov curves, and the marks.  Each kernel's
    curve is [np.exp] of the log-density [score_samples] returns over the
    figure's grid, and every such curve over a 1000-point grid has 1000
    values, all non-negative. *)
Theorem density_curves_nonneg (r : rng) :
  exists w' f1 f2 f3,
    run notebook (fresh r) = Some w'
    /\ charts (log w') = [f1; f2; f3]
    /\ map y (data f1)
       = [ None; None;
           Some (kde_curve "tophat" 0.75 (sample 6 14) (grid_column (-5) 10));
           Some (kde_curve "gaussian" 0.75 (sample 6 14) (grid_column (-5) 10)) ]
    /\ map y (data f2)
       = map (fun k => Some (kde_curve k 1 zeros_1_1 (grid_column (-6) 6)))
             ["gaussian"; "tophat"; "epanechnikov"; "exponential"; "linear"; "cosine"]
    /\ map y (data f3)
       = [ Some input_distribution;
           Some (kde_curve "gaussian" 0.5 (sample 30 70) (grid_column (-5) 10));
           Some (kde_curve "tophat" 0.5 (sample 30 70) (grid_column (-5) 10));
           Some (kde_curve "epanechnikov" 0.5 (sample 30 70) (grid_column (-5) 10));
           Some (scalar_sub (- 0.005) (scalar_mul 0.01 (fst (rug_draws 100)))) ]
    /\ (forall k h X G,
           kde_curve k h X G = map exp (score_samples (fit {| kernel := k; bandwidth := h |} X) G))
    /\ (forall k h X a b,
           List.length (kde_curve k h X (grid_column a b)) = 1000%nat
           /\ Forall nonneg (kde_curve k h X (grid_column a b))).
Proof.
  eexists. exists progression_chart, kernels_chart, density_chart.
  split; [apply notebook_runs|].
  split; [apply charts_of_events|].
  split; [reflexivity|].
  split; [reflexivity|].
  split; [reflexivity|].
  split; [reflexivity|].
  intros k h X a b. split.
  - rewrite length_kde_curve. apply length_grid_column.
  - apply kde_curve_nonneg.
Qed.

End Charts.

Lemma paired_of_shapes (l : list Plotly.Trace) (L : list (nat * option nat)) :
  map shape l = L -> Forall (fun p => snd p = Some (fst p)) L -> Forall paired l.
Proof.
  intros <- H. induction l as [|t l IH]; constructor.
  - inversion_clear H as [|? ? Ht _]. unfold shape in Ht. cbn [fst snd] in Ht.
    unfold paired. destruct (Plotly.y t) as [ys|]; [|discriminate].
    exists ys. split; [reflexivity|]. cbn in Ht. congruence.
  - apply IH. now inversion_clear H.
Qed.

Section Gallery.

Context {np : NumPy} {sk : SkLearn}.

Import Plotly.

(** C4.  From any generator state the notebook runs, and the second chart
    it sends has a grid of 2 rows and 3 columns, the six subplot titles
    'gaussian', 'tophat', 'epanechnikov', 'exponential', 'linear', 'cosine'
    and six traces.  For each index [i] from 0 to 5, with [k] the [i]-th
    name, the title over cell ([i/3 + 1], [i mod 3 + 1]) is [k], and the
    [i]-th trace is bound to the axes of that cell and plots, over the
    grid, the density curve of the estimator with kernel [k].  The cells
    are (1,1), (1,2), (1,3), (2,1), (2,2), (2,3). *)
Theorem gallery_subplots (r : rng) :
  exists w' f2,
    run notebook (fresh r) = Some w'
    /\ nth_error (charts (log w')) 1 = Some f2
    /\ grid f2 = Some (2, 3)
    /\ map text (annotations (layout f2))
       = ["gaussian"; "tophat"; "epanechnikov"; "exponential"; "linear"; "cosine"]
    /\ List.length (data f2) = 6%nat
    /\ Forall (fun ik =>
                 let i := fst ik in
                 let k := snd ik in
                 let row := i / 3 + 1 in
                 let col := i mod 3 + 1 in
                 nth_error (annotations (layout f2)) (Z.to_nat i)
                 = Some {| text := k; at_ := OverSubplot row col; showarrow := false |}
                 /\ exists t,
                     nth_error (data f2) (Z.to_nat i) = Some t
                     /\ ttype t = Scatter
                     /\ xaxis t = Some (String.append "x" (Py.str_of_int (cell_number 3 row col)))
                     /\ yaxis t = Some (String.append "y" (Py.str_of_int (cell_number 3 row col)))
                     /\ x t = linspace (-6) 6 1000
                     /\ y t = Some (kde_curve k 1 zeros_1_1 (newaxis (linspace (-6) 6 1000))))
              (enumerate ["gaussian"; "tophat"; "epanechnikov";
                          "exponential"; "linear"; "cosine"])
    /\ map (fun ik => (fst ik / 3 + 1, fst ik mod 3 + 1))
           (enumerate ["gaussian"; "tophat"; "epanechnikov";
                       "exponential"; "linear"; "cosine"])
       = [(1, 1); (1, 2); (1, 3); (2, 1); (2, 2); (2, 3)].
Proof.
  eexists. exists kernels_chart.
  split; [apply notebook_runs|].
  split; [reflexivity|].
  split; [reflexivity|].
  split; [reflexivity|].
  split; [reflexivity|].
  split; [|reflexivity].
  repeat constructor; eexists; (split; [reflexivity|]); repeat split; reflexivity.
Qed.

(** C6.  From any generator state the notebook runs; [N] is then 100, the
    template 'N={0} points' formatted with it is 'N=100 points', and that
    string is the text of the one annotation of the third chart's layout. *)
Theorem annotation_text (r : rng) :
  exists w' f3,
    run notebook (fresh r) = Some w'
    /\ nth_error (charts (log w')) 2 = Some f3
    /\ Vars.N (globals w') = Some 100
    /\ Py.format "N={0} points" [Py.VInt 100] = Some "N=100 points"
    /\ map text (annotations (layout f3)) = ["N=100 points"].
Proof.
  eexists. exists density_chart.
  split; [apply notebook_runs|].
  repeat split; reflexivity.
Qed.

(** C8.  From any generator state the notebook runs and its events
    include exactly three chart-rendering calls, one for each figure in
    order: the 2-by-2 progression chart, the 2-by-3 kernel gallery and the
    density example without a grid.  The other sixteen events are the
    version string, the eleven estimator constructions and the four of the
    publishing cell. *)
Theorem three_charts (r : rng) :
  exists w',
    run notebook (fresh r) = Some w'
    /\ filter is_chart (log w')
       = [IPlot progression_chart; IPlot kernels_chart; IPlot density_chart]
    /\ charts (log w') = [progression_chart; kernels_chart; density_chart]
    /\ List.length (charts (log w')) = 3%nat
    /\ map grid (charts (log w')) = [Some (2, 2); Some (2, 3); None]
    /\ List.length (log w') = 19%nat
    /\ List.length (estimator_calls (log w')) = 11%nat.
Proof.
  eexists. split; [apply notebook_runs|].
  repeat split; reflexivity.
Qed.

End Gallery.

(* ================================================================== *)
(** ** Array shapes *)
(* ================================================================== *)

Section Shapes.

Context {np : NumPy} {sk : SkLearn}.

Import Plotly.

Lemma length_linspace_1000 (a b : float) : List.length (linspace a b 1000) = 1000%nat.
Proof. now rewrite linspace_length by lia. Qed.

Lemma shape_set_axes (t : Trace) (n : Z) : shape (set_axes t n) = shape t.
Proof. reflexivity. Qed.

Lemma shape_filled_curve (a b : float) (k : string) (h : float) (X : matrix) :
  shape (filled_curve (linspace a b 1000) (kde_curve k h X (grid_column a b)))
  = (1000%nat, Some 1000%nat).
Proof.
  unfold shape, filled_curve, go.Scatter. cbn [x y option_map].
  now rewrite length_kde_curve, length_grid_column, length_linspace_1000.
Qed.

Lemma shape_gallery_curve (i : Z) (k : string) :
  shape (gallery_curve i k) = (1000%nat, Some 1000%nat).
Proof. unfold gallery_curve. rewrite shape_set_axes. apply shape_filled_curve. Qed.

Lemma shape_dashed_curve (k : string) :
  shape (dashed_curve k) = (1000%nat, Some 1000%nat).
Proof.
  unfold shape, dashed_curve, go.Scatter. cbn [x y option_map].
  now rewrite length_kde_curve, length_grid_column, length_linspace_1000.
Qed.

Lemma length_input_distribution : List.length input_distribution = 1000%nat.
Proof. unfold input_distribution. rewrite length_map. apply length_linspace_1000. Qed.

Lemma length_rug_draws (n : nat) : List.length (fst (rug_draws n)) = n.
Proof. apply length_draws. Qed.

Lemma column0_sample (n1 n2 : nat) :
  column0 (sample n1 n2)
  = Some (concatenate (fst (first_draws n1)) (fst (second_draws n1 n2))).
Proof. apply column0_newaxis. Qed.

(** The scatter traces of the three charts, in order. *)
Lemma scatters_of_charts :
  scatters [progression_chart; kernels_chart; density_chart]
  = [ set_axes (filled_curve (linspace (-5) 10 1000)
                  (kde_curve "tophat" 0.75 (sample 6 14) (grid_column (-5) 10))) 3;
      set_axes (filled_curve (linspace (-5) 10 1000)
                  (kde_curve "gaussian" 0.75 (sample 6 14) (grid_column (-5) 10))) 4;
      gallery_curve 0 "gaussian"; gallery_curve 1 "tophat";
      gallery_curve 2 "epanechnikov"; gallery_curve 3 "exponential";
      gallery_curve 4 "linear"; gallery_curve 5 "cosine" ]
    ++ data density_chart.
Proof. reflexivity. Qed.

Lemma over_grid_curve (a b : float) (k : string) (h : float) (X : matrix)
      (t : Trace) :
  x t = linspace a b 1000 ->
  y t = Some (kde_curve k h X (grid_column a b)) ->
  over_grid (grid_column a b) t.
Proof.
  intros Hx Hy. unfold over_grid. rewrite Hx.
  split; [apply column0_newaxis|].
  split; [apply length_grid_column|].
  left. now exists k, h, X.
Qed.

(** C9.  From any generator state the notebook runs, and every scatter
    trace of the charts it sends has x and y arrays of one length.  The
    twelve density traces have as x the 1000 points of their figure's grid
    and as y 1000 values: the curve of the trace's estimator scored on the
    column of those same points or, for the input distribution, the
    mixture's density at each of them.  The last trace, the marks of the
    third chart, has as x the column of the [N] = 100 rows of [X] and as y
    one offset for each of the uniform draws, of which there are as many as
    [X] has rows.  In each figure cell, from any state, the grid is the
    array the cell binds to [X_plot]: every density trace of the cell's
    figure has [X_plot[:, 0]] as x and a density over [X_plot] as y. *)
Theorem scatter_arrays_pair_up (r : rng) :
  exists w' X rug,
    run notebook (fresh r) = Some w'
    /\ Forall paired (scatters (charts (log w')))
    /\ map shape (scatters (charts (log w')))
       = repeat (1000%nat, Some 1000%nat) 12 ++ [(100%nat, Some 100%nat)]
    /\ Vars.X (globals w') = Some X
    /\ List.length X = 100%nat
    /\ nth_error (scatters (charts (log w'))) 12 = Some rug
    /\ mode rug = Some "markers"
    /\ column0 X = Some (x rug)
    /\ y rug = Some (scalar_sub (- 0.005)
                       (scalar_mul 0.01 (fst (rug_draws (List.length X)))))
    /\ map (fun t => (x t, y t)) (firstn 12 (scatters (charts (log w'))))
       = map (fun k => (linspace (-5) 10 1000,
                        Some (kde_curve k 0.75 (sample 6 14)
                                        (newaxis (linspace (-5) 10 1000)))))
             ["tophat"; "gaussian"]
         ++ map (fun k => (linspace (-6) 6 1000,
                           Some (kde_curve k 1 zeros_1_1
                                           (newaxis (linspace (-6) 6 1000)))))
                ["gaussian"; "tophat"; "epanechnikov";
                 "exponential"; "linear"; "cosine"]
         ++ [(linspace (-5) 10 1000,
              Some (map (mixture_pdf the_mixture) (linspace (-5) 10 1000)))]
         ++ map (fun k => (linspace (-5) 10 1000,
                           Some (kde_curve k 0.5 (sample 30 70)
                                           (newaxis (linspace (-5) 10 1000)))))
                ["gaussian"; "tophat"; "epanechnikov"]
    /\ (forall w, exists w1 G f,
           run cell_progression w = Some w1
           /\ Vars.X_plot (globals w1) = Some G
           /\ Vars.fig (globals w1) = Some f
           /\ List.length (filter is_scatter (data f)) = 2%nat
           /\ Forall (over_grid G) (filter is_scatter (data f)))
    /\ (forall w, exists w1 G f,
           run cell_kernels w = Some w1
           /\ Vars.X_plot (globals w1) = Some G
           /\ Vars.fig (globals w1) = Some f
           /\ List.length (data f) = 6%nat
           /\ Forall (over_grid G) (data f))
    /\ (forall w, exists w1 G X1 f marks,
           run cell_density w = Some w1
           /\ Vars.X_plot (globals w1) = Some G
           /\ Vars.X (globals w1) = Some X1
           /\ Vars.fig (globals w1) = Some f
           /\ List.length (firstn 4 (data f)) = 4%nat
           /\ Forall (over_grid G) (firstn 4 (data f))
           /\ skipn 4 (data f) = [marks]
           /\ column0 X1 = Some (x marks)
           /\ y marks = Some (scalar_sub (- 0.005)
                                (scalar_mul 0.01 (fst (rug_draws (List.length X1)))))).
Proof.
  assert (Hs : map shape (scatters [progression_chart; kernels_chart; density_chart])
               = repeat (1000%nat, Some 1000%nat) 12 ++ [(100%nat, Some 100%nat)]).
  { rewrite scatters_of_charts. unfold density_chart. cbn [data app map].
    rewrite !shape_set_axes, !shape_filled_curve, !shape_gallery_curve,
      !shape_dashed_curve.
    unfold shape, go.Scatter. cbn [x y option_map].
    unfold scalar_sub, scalar_mul.
    rewrite !length_map, length_input_distribution, length_linspace_1000,
      length_rug_draws, length_concatenate.
    unfold first_draws, second_draws. rewrite !length_draws. reflexivity. }
  eexists. exists (sample 30 70).
  eexists.
  split; [apply notebook_runs|].
  cbn [log globals]. rewrite charts_of_events.
  split; [eapply paired_of_shapes; [exact Hs|]; repeat constructor|].
  split; [exact Hs|].
  split; [reflexivity|].
  split; [apply (length_sample 30 70)|].
  rewrite scatters_of_charts.
  split; [reflexivity|].
  split; [reflexivity|].
  split; [apply column0_sample|].
  split; [rewrite (length_sample 30 70); reflexivity|].
  split; [reflexivity|].
  split; [|split].
  - intros w. unfold run. rewrite progression_effect.
    eexists. exists (grid_column (-5) 10), progression_chart.
    split; [reflexivity|].
    split; [reflexivity|].
    split; [reflexivity|].
    split; [reflexivity|].
    unfold progression_chart. cbn [data filter is_scatter ttype set_axes go.Histogram
                                   filled_curve go.Scatter].
    repeat (apply Forall_cons;
            [eapply over_grid_curve; reflexivity|]).
    apply Forall_nil.
  - intros w. unfold run. rewrite kernels_effect.
    eexists. exists (grid_column (-6) 6), kernels_chart.
    split; [reflexivity|].
    split; [reflexivity|].
    split; [reflexivity|].
    split; [reflexivity|].
    unfold kernels_chart. cbn [data].
    change (enumerate VALID_KERNELS)
      with [(0, "gaussian"); (1, "tophat"); (2, "epanechnikov");
            (3, "exponential"); (4, "linear"); (5, "cosine")].
    cbn [map fst snd].
    repeat (apply Forall_cons;
            [eapply over_grid_curve; reflexivity|]).
    apply Forall_nil.
  - intros w. unfold run. rewrite density_effect.
    eexists. exists (grid_column (-5) 10), (sample 30 70), density_chart.
    eexists.
    split; [reflexivity|].
    split; [reflexivity|].
    split; [reflexivity|].
    split; [reflexivity|].
    split; [reflexivity|].
    split.
    + unfold density_chart. cbn [data firstn].
      apply Forall_cons.
      * unfold over_grid. cbn [x y go.Scatter].
        split; [apply column0_newaxis|].
        split; [apply length_grid_column|].
        right. reflexivity.
      * repeat (apply Forall_cons;
                [eapply over_grid_curve; reflexivity|]).
        apply Forall_nil.
    + split; [reflexivity|].
      split; [apply column0_sample|].
      rewrite (length_sample 30 70). reflexivity.
Qed.

End Shapes.

(* ================================================================== *)
(** ** The input distribution *)
(* ================================================================== *)

Section InputDistribution.

Context {np : NumPy} {sk : SkLearn}.

Import Plotly.

(** C10.  In the third figure's cell, from any state of the interpreter,
    [true_dens] is, at every point of the grid [X_plot], 0.3 times the
    density of N(0, 1) plus 0.7 times the density of N(5, 1); it is the
    y array of the trace named 'input distribution'; the sample [X] is
    drawn from the mixture with the same weights, means and standard
    deviations; and the two weights, added as floats, give 1. *)
Theorem true_dens_is_the_mixture (w : World) :
  exists w' f a t,
    run cell_density w = Some w'
    /\ Vars.X_plot (globals w') = Some (newaxis (linspace (-5) 10 1000))
    /\ Vars.true_dens (globals w')
       = Some (map (mixture_pdf the_mixture) (linspace (-5) 10 1000))
    /\ (forall v, mixture_pdf the_mixture v
                  = (0.3 * norm_pdf 0 1 v + 0.7 * norm_pdf 5 1 v)%float)
    /\ mixture_sample the_mixture 100 (seeded 1) = Some a
    /\ Vars.X (globals w') = Some (newaxis a)
    /\ (weight (fst the_mixture) + weight (snd the_mixture) = 1)%float
    /\ Vars.fig (globals w') = Some f
    /\ nth_error (data f) 0 = Some t
    /\ name t = Some "input distribution"
    /\ y t = Vars.true_dens (globals w').
Proof.
  eexists. exists density_chart.
  exists (concatenate (fst (first_draws 30)) (fst (second_draws 30 70))).
  eexists.
  split; [unfold run; rewrite density_effect; reflexivity|].
  cbn [globals].
  split; [reflexivity|].
  split; [reflexivity|].
  split; [reflexivity|].
  split; [apply mixture_sample_100|].
  repeat split; reflexivity.
Qed.

End InputDistribution.

(* ================================================================== *)
(** ** Reproducibility *)
(* ================================================================== *)

Section Reproducibility.

Context {np : NumPy} {sk : SkLearn}.

(** C7.  Whatever the states of the interpreter (and so of the random
    generator) two executions start from, each sampling cell binds the same
    sample [X] and the same figure in both, leaves the generator in the
    same state and adds the same events; and two runs of the whole notebook
    from two generator states end in the same state, having sent the same
    events, charts included. *)
Theorem seeded_runs_agree (w1 w2 : World) (r1 r2 : rng) :
  (exists X f es w1' w2',
      run cell_progression w1 = Some w1'
      /\ run cell_progression w2 = Some w2'
      /\ Vars.X (globals w1') = Some X /\ Vars.X (globals w2') = Some X
      /\ Vars.fig (globals w1') = Some f /\ Vars.fig (globals w2') = Some f
      /\ np_random w1' = np_random w2'
      /\ log w1' = log w1 ++ es /\ log w2' = log w2 ++ es)
  /\ (exists X f es w1' w2',
         run cell_density w1 = Some w1'
         /\ run cell_density w2 = Some w2'
         /\ Vars.X (globals w1') = Some X /\ Vars.X (globals w2') = Some X
         /\ Vars.fig (globals w1') = Some f /\ Vars.fig (globals w2') = Some f
         /\ np_random w1' = np_random w2'
         /\ log w1' = log w1 ++ es /\ log w2' = log w2 ++ es)
  /\ (exists w',
         run notebook (fresh r1) = Some w'
         /\ run notebook (fresh r2) = Some w').
Proof.
  split; [|split].
  - exists (sample 6 14), progression_chart.
    eexists. eexists. eexists.
    split; [unfold run; rewrite progression_effect; reflexivity|].
    split; [unfold run; rewrite progression_effect; reflexivity|].
    cbn [globals log np_random]. repeat split; reflexivity.
  - exists (sample 30 70), density_chart.
    eexists. eexists. eexists.
    split; [unfold run; rewrite density_effect; reflexivity|].
    split; [unfold run; rewrite density_effect; reflexivity|].
    cbn [globals log np_random]. repeat split; reflexivity.
  - eexists. split; apply notebook_runs.
Qed.

End Reproducibility.

(* ================================================================== *)
(** ** The statements on the reference implementation *)
(* ================================================================== *)

(** The density curves of the notebook run on the reference implementation
    are non-negative. *)
Lemma density_curves_nonneg_ref :
  Forall nonneg
         (@kde_curve ref_numpy ref_sklearn "tophat" 0.75
            (@sample ref_numpy 6 14) (@grid_column ref_numpy (-5) 10)).
Proof.
  destruct (@density_curves_nonneg ref_numpy ref_sklearn 0)
    as (w' & f1 & f2 & f3 & _ & _ & _ & _ & _ & _ & H).
  exact (proj2 (H "tophat" 0.75%float (@sample ref_numpy 6 14) (-5)%float 10%float)).
Defined.

(** The scatter traces of the notebook run on the reference implementation
    pair up. *)
Lemma scatter_arrays_pair_up_ref :
  exists w',
    @run ref_numpy unit (@notebook ref_numpy ref_sklearn) (@fresh ref_numpy 0) = Some w'
    /\ Forall paired (scatters (charts (@log ref_numpy w'))).
Proof.
  destruct (@scatter_arrays_pair_up ref_numpy ref_sklearn 0)
    as (w' & X & rug & Hrun & Hpaired & _).
  exists w'. split; [exact Hrun | exact Hpaired].
Defined.

(** The notebook runs on the reference implementation: nineteen events,
    and the traces of the three charts have these lengths of x and y. *)
Example notebook_on_reference :
  option_map (fun w => (List.length (@log ref_numpy w),
                        map (fun f => map shape (Plotly.data f))
                            (charts (@log ref_numpy w))))
             (@run ref_numpy unit (@notebook ref_numpy ref_sklearn) (@fresh ref_numpy 0))
  = Some (19%nat,
          [ [(20%nat, None); (20%nat, None);
             (1000%nat, Some 1000%nat); (1000%nat, Some 1000%nat)];
            repeat (1000%nat, Some 1000%nat) 6;
            repeat (1000%nat, Some 1000%nat) 4 ++ [(100%nat, Some 100%nat)] ]).
Proof. vm_compute. reflexivity. Qed.

(** The six kernels of the reference implementation around a single point
    at 0, at 0, 0.5 and 1.5 bandwidths from it. *)
Example reference_kernels :
  map (fun k => @kde_curve ref_numpy ref_sklearn k 1 zeros_1_1 [[0]; [0.5]; [1.5]]%float)
      VALID_KERNELS
  = [ [0.39894228040146179; 0.35206264051063657; 0.1294375223497885];
      [0.49999999999999944; 0.49999999999999944; 0];
      [0.75000000000000122; 0.56250000000000189; 0];
      [0.49999999999999944; 0.30322830036851023; 0.1114424586246911];
      [1; 0.49999999999999944; 0];
      [0.78539816339740487; 0.55536038650949682; 0] ]%float.
Proof. vm_compute. reflexivity. Qed.

(* ================================================================== *)
(** ** Labels and annotation texts for any argument *)
(* ================================================================== *)

Lemma in_zrange (a : Z) (n : nat) (z : Z) :
  a <= z < a + Z.of_nat n -> In z (zrange a n).
Proof.
  intros H. unfold zrange. apply in_map_iff.
  exists (Z.to_nat (z - a)). split; [lia|]. apply in_seq. lia.
Qed.

Lemma str_of_int_parse (z : Z) :
  NilZero.int_of_string (Py.str_of_int z) = Some (Z.to_int z).
Proof.
  unfold Py.str_of_int. apply NilZero.isi; destruct z; cbn [Z.to_int]; intros H;
    try discriminate H; injection H as H; now apply DecimalPos.Unsigned.to_uint_nonnil in H.
Qed.

Lemma str_of_int_inj (z z' : Z) : Py.str_of_int z = Py.str_of_int z' -> z = z'.
Proof.
  intros H. apply DecimalZ.to_int_inj.
  pose proof (str_of_int_parse z) as P. rewrite H, str_of_int_parse in P.
  now injection P.
Qed.

Lemma str_of_int_not_empty (z : Z) : Py.str_of_int z <> EmptyString.
Proof. intros H. pose proof (str_of_int_parse z) as P. rewrite H in P. discriminate P. Qed.

Lemma str_of_int_not_minus (z : Z) : Py.str_of_int z <> "-".
Proof. intros H. pose proof (str_of_int_parse z) as P. rewrite H in P. discriminate P. Qed.

Lemma append_inj_l (s s' u : string) :
  String.length s = String.length s' -> String.append s u = String.append s' u -> s = s'.
Proof.
  revert s'. induction s as [|c s IH]; intros [|c' s'] L H; cbn in L; try discriminate L.
  - reflexivity.
  - cbn in H. injection H as -> H. f_equal. apply IH; [lia | exact H].
Qed.

Lemma length_append (s u : string) :
  String.length (String.append s u) = (String.length s + String.length u)%nat.
Proof. induction s as [|c s IH]; cbn; [reflexivity | now rewrite IH]. Qed.

Lemma append_inj (s s' u : string) :
  String.append s u = String.append s' u -> s = s'.
Proof.
  intros H. apply append_inj_l with (u := u); [|exact H].
  apply (f_equal String.length) in H. rewrite !length_append in H. lia.
Qed.

Lemma format_plain_prefix (a t : string) (args : list Py.val) :
  plain a = true ->
  Py.format_from (String.append a t) args None
  = option_map (String.append a) (Py.format_from t args None).
Proof.
  induction a as [|c a IH]; intros H.
  - cbn. now destruct (Py.format_from t args None).
  - cbn in H. apply andb_prop in H as [H Ha]. apply andb_prop in H as [H1 H2].
    apply negb_true_iff in H1, H2.
    cbn [String.append Py.format_from]. rewrite H1, H2, (IH Ha).
    now destruct (Py.format_from t args None).
Qed.

Lemma format_plain (a : string) (args : list Py.val) :
  plain a = true -> Py.format_from a args None = Some a.
Proof.
  induction a as [|c a IH]; intros H; [reflexivity|].
  cbn in H. apply andb_prop in H as [H Ha]. apply andb_prop in H as [H1 H2].
  apply negb_true_iff in H1, H2.
  cbn [Py.format_from]. now rewrite H1, H2, (IH Ha).
Qed.

(** X1.  The annotation of the third figure for any [N]: the template
    'N={0} points' formatted with an int never raises, gives 'N=', the
    decimal numeral of [N] and ' points', and different values of [N] give
    different texts. *)
Theorem annotation_text_of_N (N N' : Z) :
  Py.format "N={0} points" [Py.VInt N]
  = Some (String.append "N=" (String.append (Py.str_of_int N) " points"))
  /\ (Py.format "N={0} points" [Py.VInt N] = Py.format "N={0} points" [Py.VInt N']
      <-> N = N').
Proof.
  assert (E : forall n, Py.format "N={0} points" [Py.VInt n]
                        = Some (String.append "N=" (String.append (Py.str_of_int n) " points")))
    by reflexivity.
  split; [apply E|]. split; [|now intros ->].
  rewrite !E. intros H. injection H as H.
  apply str_of_int_inj. now apply append_inj in H.
Qed.

(** X2.  The legend name of a dashed curve for any kernel name: the template
    "kernel = '{0}'" formatted with a string never raises and gives the name
    between single quotes, as written, whatever characters it has (braces in
    the argument are not read as fields). *)
Theorem curve_name_of_kernel (k : string) :
  Py.format "kernel = '{0}'" [Py.VStr k]
  = Some (String.append "kernel = '" (String.append k "'")).
Proof.
  change "kernel = '{0}'" with (String.append "kernel = '" "{0}'").
  unfold Py.format. rewrite format_plain_prefix by reflexivity.
  reflexivity.
Qed.

(* ================================================================== *)
(** ** [format_func] *)
(* ================================================================== *)

Lemma format_func_int (z : Z) (loc : Py.num) :
  format_func (Py.Int z) loc
  = if z =? 0 then Some "0"
    else if z =? 1 then Some "h"
    else if z =? -1 then Some "-h"
    else Some (String.append (Py.str_of_int z) "h").
Proof. unfold format_func. now destruct (z =? 0), (z =? 1), (z =? -1). Qed.

Lemma numeral_h_not_0 (z : Z) : String.append (Py.str_of_int z) "h" <> "0".
Proof.
  intros H. apply (f_equal String.length) in H. rewrite length_append in H.
  pose proof (str_of_int_not_empty z) as E.
  destruct (Py.str_of_int z); [now apply E | cbn in H; lia].
Qed.

Lemma numeral_h_not_h (z : Z) : String.append (Py.str_of_int z) "h" <> "h".
Proof.
  intros H. apply (str_of_int_not_empty z).
  now apply (append_inj (Py.str_of_int z) EmptyString "h").
Qed.

Lemma numeral_h_not_minus_h (z : Z) : String.append (Py.str_of_int z) "h" <> "-h".
Proof.
  intros H. apply (str_of_int_not_minus z).
  now apply (append_inj (Py.str_of_int z) "-" "h").
Qed.

(** X3.  On integer ticks [format_func] never raises, never gives an empty
    label, and gives different ticks different labels, whatever [loc] is. *)
Theorem format_func_labels_integers (z z' : Z) (loc loc' : Py.num) :
  (exists s, format_func (Py.Int z) loc = Some s /\ s <> EmptyString)
  /\ (format_func (Py.Int z) loc = format_func (Py.Int z') loc' <-> z = z').
Proof.
  split.
  - rewrite format_func_int.
    destruct (z =? 0); [eexists; split; [reflexivity | discriminate]|].
    destruct (z =? 1); [eexists; split; [reflexivity | discriminate]|].
    destruct (z =? -1); [eexists; split; [reflexivity | discriminate]|].
    eexists; split; [reflexivity|].
    intros H. apply (f_equal String.length) in H. rewrite length_append in H.
    cbn in H. lia.
  - split; [|intros ->; now rewrite !format_func_int].
    rewrite !format_func_int.
    pose proof (numeral_h_not_0 z) as A0. pose proof (numeral_h_not_0 z') as B0.
    pose proof (numeral_h_not_h z) as A1. pose proof (numeral_h_not_h z') as B1.
    pose proof (numeral_h_not_minus_h z) as A2.
    pose proof (numeral_h_not_minus_h z') as B2.
    destruct (Z.eqb_spec z 0), (Z.eqb_spec z 1), (Z.eqb_spec z (-1)),
      (Z.eqb_spec z' 0), (Z.eqb_spec z' 1), (Z.eqb_spec z' (-1));
      intros H; try lia; try discriminate H; injection H as H;
      try (now symmetry in H); try contradiction.
    apply str_of_int_inj. now apply append_inj in H.
Qed.

Lemma SFeqb_refl (p : spec_float) : p <> S754_nan -> SFeqb p p = true.
Proof.
  intros H. destruct p as [s|s| |s m e]; try (now destruct s); [contradiction|].
  unfold SFeqb, SFcompare. rewrite Z.compare_refl, Pos.compare_cont_refl.
  now destruct s.
Qed.

Lemma is_nan_spec (x : float) : PrimFloat.is_nan x = true <-> Prim2SF x = S754_nan.
Proof.
  unfold PrimFloat.is_nan. rewrite eqb_spec. split.
  - intros H. destruct (Prim2SF x) eqn:E; try reflexivity;
      rewrite SFeqb_refl in H by discriminate; discriminate H.
  - intros ->. reflexivity.
Qed.

Lemma is_infinity_spec (x : float) :
  PrimFloat.is_infinity x = true <-> exists s, Prim2SF x = S754_infinity s.
Proof.
  unfold PrimFloat.is_infinity. rewrite eqb_spec, abs_spec.
  change (Prim2SF infinity) with (S754_infinity false). split.
  - intros H. destruct (Prim2SF x) as [s|s| |s m e]; try discriminate H.
    now exists s.
  - intros [s ->]. reflexivity.
Qed.

(** X4.  On a float tick [format_func] raises exactly when the tick is a NaN
    or an infinity (which ['%i'] cannot convert); every finite tick gets a
    label. *)
Theorem format_func_raises_on_nonfinite (x : float) (loc : Py.num) :
  format_func (Py.Float x) loc = None
  <-> PrimFloat.is_nan x = true \/ PrimFloat.is_infinity x = true.
Proof.
  rewrite is_nan_spec, is_infinity_spec.
  unfold format_func. rewrite !eqb_spec.
  change (Prim2SF (Py.float_of_int 0)) with (S754_zero false).
  change (Prim2SF (Py.float_of_int 1)) with (S754_finite false 4503599627370496 (-52)).
  change (Prim2SF (Py.float_of_int (-1))) with (S754_finite true 4503599627370496 (-52)).
  unfold Py.int_of_float.
  destruct (Prim2SF x) as [s|s| |s m e] eqn:E.
  - split; [discriminate | intros [H|[s' H]]; discriminate H].
  - split; [intros _; right; now exists s | intros _; now destruct s].
  - split; [intros _; now left | reflexivity].
  - split.
    + destruct (SFeqb _ _); [discriminate|].
      destruct (SFeqb _ _); [discriminate|].
      destruct (SFeqb _ _); discriminate.
    + intros [H|[s' H]]; discriminate H.
Qed.

Lemma same_label_checked : forallb same_label_as_float (zrange (-1000) 2001) = true.
Proof. vm_compute. reflexivity. Qed.

(** X5.  A whole-number tick gets the same label whether it comes as a float
    or as an int, for every tick from -1000 to 1000: the float 2.0 is
    labelled '2h' and not '2.0h'. *)
Theorem format_func_float_like_int (z : Z) (loc : Py.num) :
  -1000 <= z <= 1000 ->
  format_func (Py.Float (Py.float_of_int z)) loc = format_func (Py.Int z) loc.
Proof.
  intros H.
  pose proof (proj1 (forallb_forall _ _) same_label_checked z
                (@in_zrange (-1000) 2001 z ltac:(lia))) as C.
  unfold same_label_as_float in C.
  change (format_func (Py.Float (Py.float_of_int z)) loc)
    with (format_func (Py.Float (Py.float_of_int z)) (Py.Int 0)).
  change (format_func (Py.Int z) loc) with (format_func (Py.Int z) (Py.Int 0)).
  destruct (format_func (Py.Float (Py.float_of_int z)) (Py.Int 0)) as [a|];
    [|discriminate C].
  destruct (format_func (Py.Int z) (Py.Int 0)) as [b|]; [|discriminate C].
  apply String.eqb_eq in C. now subst.
Qed.

(** At the tick 2 the float and the int are both labelled '2h'. *)
Lemma format_func_float_like_int_at_2 :
  format_func (Py.Float (Py.float_of_int 2)) (Py.Int 0) = format_func (Py.Int 2) (Py.Int 0).
Proof. apply format_func_float_like_int. lia. Defined.

(* ================================================================== *)
(** ** The sampling statements for any N *)
(* ================================================================== *)

Section SampleRows.

Context {np : NumPy} {sk : SkLearn}.

Lemma draw_sample_counts (N : Z) (w : World) :
  draw_sample N w
  = match sample_counts N with
    | Some (n1, n2) =>
        Some (sample n1 n2,
              {| np_random := snd (second_draws n1 n2); globals := globals w;
                 log := log w |})
    | None => None
    end.
Proof.
  unfold draw_sample, sample_counts, normal. rewrite seed_step.
  destruct (as_length (Py.Float (0.3 * Py.float_of_int N))) as [n1|] eqn:E1.
  - erewrite draw_step by exact E1. cbn [np_random globals log].
    destruct (as_length (Py.Float (0.7 * Py.float_of_int N))) as [n2|] eqn:E2.
    + erewrite draw_step by exact E2. reflexivity.
    + unfold bind, draw_array. now rewrite E2.
  - unfold bind, draw_array. now rewrite E1.
Qed.

(** The cells' samples are the ones of [N] = 20 and [N] = 100. *)
Lemma draw_sample_of_cells (w : World) :
  option_map fst (draw_sample 20 w) = Some (sample 6 14)
  /\ option_map fst (draw_sample 100 w) = Some (sample 30 70).
Proof.
  rewrite !draw_sample_counts.
  replace (sample_counts 20) with (Some (6, 14)%nat) by (vm_compute; reflexivity).
  replace (sample_counts 100) with (Some (30, 70)%nat) by (vm_compute; reflexivity).
  split; reflexivity.
Qed.

Lemma rows_checked_to_2000 : forallb rows_checked (zrange 0 2001) = true.
Proof. vm_compute. reflexivity. Qed.

Lemma raises_checked_from_minus_2000 : forallb raises_checked (zrange (-2000) 1999) = true.
Proof. vm_compute. reflexivity. Qed.

(** X6.  For every size [N] from 0 to 2000 the sampling statements return,
    from any state, an array [X] of [N] rows or one row fewer, never more;
    they give [N] rows only when [N] is a multiple of ten.  Not every
    multiple of ten gives [N] rows: at [N] = 90 the product 0.7 * 90 falls
    just under 63 and [X] has 89 rows. *)
Theorem sample_rows_of_N (N : Z) (w : World) :
  0 <= N <= 2000 ->
  (exists X w',
      draw_sample N w = Some (X, w')
      /\ N - 1 <= Z.of_nat (List.length X) <= N
      /\ (Z.of_nat (List.length X) = N -> N mod 10 = 0))
  /\ (exists X w', draw_sample 90 w = Some (X, w') /\ List.length X = 89%nat).
Proof.
  intros H. split.
  - pose proof (proj1 (forallb_forall _ _) rows_checked_to_2000 N
                  (@in_zrange 0 2001 N ltac:(lia))) as C.
    unfold rows_checked in C. rewrite draw_sample_counts.
    destruct (sample_counts N) as [[n1 n2]|]; [|discriminate C].
    eexists. eexists. split; [reflexivity|].
    rewrite length_sample.
    apply andb_prop in C as [C C3]. apply andb_prop in C as [C1 C2].
    apply Z.leb_le in C1, C2. split; [lia|].
    intros E. apply Z.eqb_eq in E. rewrite E in C3. now apply Z.eqb_eq in C3.
  - rewrite draw_sample_counts.
    replace (sample_counts 90) with (Some (27, 62)%nat) by (vm_compute; reflexivity).
    eexists. eexists. split; [reflexivity|]. apply (length_sample 27 62).
Qed.

(** X7.  For every negative size [N] from -2000 to -2 the sampling
    statements raise (a negative number of draws), from any state; at
    [N] = -1 and [N] = 0 both counts truncate to zero and [X] is empty. *)
Theorem sample_of_negative_N (N : Z) (w : World) :
  -2000 <= N <= -2 ->
  draw_sample N w = None
  /\ option_map fst (draw_sample (-1) w) = Some []
  /\ option_map fst (draw_sample 0 w) = Some [].
Proof.
  intros H. split; [|split].
  - pose proof (proj1 (forallb_forall _ _) raises_checked_from_minus_2000 N
                  (@in_zrange (-2000) 1999 N ltac:(lia))) as C.
    unfold raises_checked in C. rewrite draw_sample_counts.
    now destruct (sample_counts N).
  - rewrite draw_sample_counts.
    replace (sample_counts (-1)) with (Some (0, 0)%nat) by (vm_compute; reflexivity).
    reflexivity.
  - rewrite draw_sample_counts.
    replace (sample_counts 0) with (Some (0, 0)%nat) by (vm_compute; reflexivity).
    reflexivity.
Qed.

End SampleRows.

(** On the reference implementation, from generator state 0: a sample for
    [N] = 50 has 50 rows, and one for [N] = -20 raises. *)
Lemma sample_rows_of_N_ref :
  exists X w',
    @draw_sample ref_numpy 50 (@fresh ref_numpy 0) = Some (X, w')
    /\ 50 - 1 <= Z.of_nat (List.length X) <= 50.
Proof.
  destruct (@sample_rows_of_N ref_numpy 50 (@fresh ref_numpy 0) ltac:(lia))
    as [(X & w' & E & B & _) _].
  exists X, w'. split; [exact E | exact B].
Defined.

Lemma sample_of_negative_N_ref :
  @draw_sample ref_numpy (-20) (@fresh ref_numpy 0) = None.
Proof.
  exact (proj1 (@sample_of_negative_N ref_numpy (-20) (@fresh ref_numpy 0) ltac:(lia))).
Defined.

(* ================================================================== *)
(** ** The cell of a trace in the gallery *)
(* ================================================================== *)

(** X8.  In a figure with a grid of 2 rows and 3 columns,
    [fig.append_trace(trace, i/3+1, i%3+1)] succeeds for every index [i] from
    0 to 5, adds the trace last and binds it to the axes numbered [i + 1];
    for every other index, negative ones included, it raises. *)
Theorem gallery_cell_of_index (fig : Plotly.Figure) (t : Plotly.Trace) (i : Z) :
  Plotly.grid fig = Some (2, 3) ->
  Plotly.append_trace fig t (i / 3 + 1) (i mod 3 + 1)
  = if (0 <=? i) && (i <? 6)
    then Some {| Plotly.data := Plotly.data fig ++ [Plotly.set_axes t (i + 1)];
                 Plotly.layout := Plotly.layout fig;
                 Plotly.grid := Plotly.grid fig |}
    else None.
Proof.
  intros G. unfold Plotly.append_trace, Plotly.cell_number. rewrite G.
  pose proof (Z.div_mod i 3 ltac:(lia)) as D.
  pose proof (Z.mod_pos_bound i 3 ltac:(lia)) as M.
  set (q := i / 3) in *. set (r := i mod 3) in *. clearbody q r.
  destruct (Z.leb_spec 0 i) as [L|L]; destruct (Z.ltb_spec i 6) as [U|U]; cbn [andb].
  - replace ((1 <=? q + 1) && (q + 1 <=? 2) && (1 <=? r + 1) && (r + 1 <=? 3))
      with true by (symmetry; rewrite !andb_true_iff, !Z.leb_le; lia).
    replace ((q + 1 - 1) * 3 + (r + 1)) with (i + 1) by lia.
    reflexivity.
  - replace (q + 1 <=? 2) with false by (symmetry; apply Z.leb_gt; lia).
    now rewrite andb_false_r.
  - replace (1 <=? q + 1) with false by (symmetry; apply Z.leb_gt; lia).
    reflexivity.
  - lia.
Qed.

(** The gallery's empty figure takes a trace at index 4 in cell (2, 2). *)
Lemma gallery_cell_of_index_at_4 :
  exists f,
    Plotly.make_subplots 2 3 VALID_KERNELS = Some f
    /\ option_map (fun f' => map Plotly.xaxis (Plotly.data f'))
         (Plotly.append_trace f (go.Scatter [] [] None None None None None None)
            (4 / 3 + 1) (4 mod 3 + 1))
       = Some [Some "x5"].
Proof.
  eexists. split; [reflexivity|].
  rewrite gallery_cell_of_index by reflexivity. reflexivity.
Defined.

(* ================================================================== *)
(** ** The cells from any state, and in other orders *)
(* ================================================================== *)

Lemma charts_app (l l' : list event) : charts (l ++ l') = charts l ++ charts l'.
Proof.
  induction l as [|e l IH]; [reflexivity|].
  destruct e; cbn; now rewrite ?IH.
Qed.

Section Cells.

Context {np : NumPy} {sk : SkLearn}.

Import Plotly.



(** X10.  Run again in the same interpreter, from the state the first run
    left (the generator advanced, every name bound), the notebook sends the
    same events once more and ends with the same names and the same
    generator state. *)
Theorem notebook_rerun (w : World) :
  exists w1 w2,
    run notebook w = Some w1
    /\ run notebook w1 = Some w2
    /\ log w1 = log w ++ notebook_events
    /\ log w2 = log w1 ++ notebook_events
    /\ globals w2 = globals w1
    /\ np_random w2 = np_random w1.
Proof.
  unfold run. rewrite notebook_effect. cbn [option_map snd].
  eexists. eexists. split; [reflexivity|].
  rewrite notebook_effect. cbn [option_map snd log globals np_random].
  repeat split; reflexivity.
Qed.

(** X11.  [py.iplot(fig)] sends whichever figure was bound last.  After the
    gallery cell alone it sends the gallery; if the density cell ran and the
    gallery cell is run again before it, it sends the gallery, not the
    density example; in the notebook's order it sends the density example;
    and after the progression cell, which plots its own figure, it sends
    that chart a second time. *)
Theorem show_sends_the_last_figure (w : World) :
  (exists w', run (cell_kernels ;; cell_show) w = Some w'
              /\ charts (log w') = charts (log w) ++ [kernels_chart])
  /\ (exists w', run (cell_density ;; cell_kernels ;; cell_show) w = Some w'
                 /\ charts (log w') = charts (log w) ++ [kernels_chart])
  /\ (exists w', run (cell_kernels ;; cell_density ;; cell_show) w = Some w'
                 /\ charts (log w') = charts (log w) ++ [density_chart])
  /\ (exists w', run (cell_progression ;; cell_show) w = Some w'
                 /\ charts (log w')
                    = charts (log w) ++ [progression_chart; progression_chart]).
Proof.
  unfold run. repeat split.
  - erewrite bind_known by apply kernels_effect.
    erewrite show_effect by reflexivity.
    eexists. split; [reflexivity|].
    cbn [log snd]. rewrite <- ?app_assoc. rewrite charts_app. reflexivity.
  - erewrite bind_known by apply density_effect.
    erewrite bind_known by apply kernels_effect.
    erewrite show_effect by reflexivity.
    eexists. split; [reflexivity|].
    cbn [log snd]. rewrite <- ?app_assoc. rewrite charts_app. reflexivity.
  - erewrite bind_known by apply kernels_effect.
    erewrite bind_known by apply density_effect.
    erewrite show_effect by reflexivity.
    eexists. split; [reflexivity|].
    cbn [log snd]. rewrite <- ?app_assoc. rewrite charts_app. reflexivity.
  - erewrite bind_known by apply progression_effect.
    erewrite show_effect by reflexivity.
    eexists. split; [reflexivity|].
    cbn [log snd]. rewrite <- ?app_assoc. rewrite charts_app. reflexivity.
Qed.

(** X12.  From any state the gallery cell draws nothing from the random
    generator, sends no chart, and leaves [N], [X] and [true_dens] as they
    were; it rebinds [X_plot] to the grid from -6 to 6, [X_src] and [fig].
    Its chart is the same whatever ran before. *)
Theorem gallery_cell_uses_no_sample (w : World) :
  exists w',
    run cell_kernels w = Some w'
    /\ np_random w' = np_random w
    /\ charts (log w') = charts (log w)
    /\ Vars.N (globals w') = Vars.N (globals w)
    /\ Vars.X (globals w') = Vars.X (globals w)
    /\ Vars.true_dens (globals w') = Vars.true_dens (globals w)
    /\ Vars.X_plot (globals w') = Some (newaxis (linspace (-6) 6 1000))
    /\ Vars.X_src (globals w') = Some [[0%float]]
    /\ Vars.fig (globals w') = Some kernels_chart.
Proof.
  unfold run. rewrite kernels_effect. eexists. split; [reflexivity|].
  cbn [np_random log globals snd]. rewrite charts_app.
  repeat split; try reflexivity. apply app_nil_r.
Qed.

(** X13.  The two histograms of the first figure, from any state: they are
    the only traces that are not scatter traces; both take as x the column
    of [X], all 20 sample values, and have no y; they have the same marker
    and differ in [nbinsy], 10 and 30 (the second, titled 'bins shifted', is
    given more bins, not other data), and in their axes, those of cells
    (1, 1) and (1, 2). *)
Theorem histograms_of_the_sample (w : World) :
  exists w' X f h1 h2,
    run cell_progression w = Some w'
    /\ Vars.X (globals w') = Some X
    /\ Vars.fig (globals w') = Some f
    /\ filter (fun t => negb (is_scatter t)) (data f) = [h1; h2]
    /\ column0 X = Some (x h1)
    /\ x h2 = x h1
    /\ List.length (x h1) = 20%nat
    /\ y h1 = None /\ y h2 = None
    /\ marker h2 = marker h1
    /\ nbinsy h1 = Some 10 /\ nbinsy h2 = Some 30
    /\ (xaxis h1, yaxis h1) = (Some "x1", Some "y1")
    /\ (xaxis h2, yaxis h2) = (Some "x2", Some "y2").
Proof.
  unfold run. rewrite progression_effect.
  eexists. exists (sample 6 14), progression_chart. eexists. eexists.
  split; [reflexivity|].
  split; [reflexivity|].
  split; [reflexivity|].
  split; [reflexivity|].
  split; [apply column0_sample|].
  split; [reflexivity|].
  split.
  - cbn [x set_axes go.Histogram]. rewrite length_concatenate.
    unfold first_draws, second_draws. now rewrite !length_draws.
  - repeat split; reflexivity.
Qed.

(** X14.  The layout of the first figure, from any state: the loop over
    [range(1, 5, 2)] finds both its axis keys and titles 'Normalized
    Density' exactly the y axes of the two cells of the first column, (1, 1)
    and (2, 1); the other six axes stay untitled; and the layout update sets
    [hovermode], [height] and [showlegend] and no title. *)
Theorem axis_titles_of_progression (w : World) :
  exists w' f,
    run cell_progression w = Some w'
    /\ Vars.fig (globals w') = Some f
    /\ map fst (axes (layout f))
       = ["xaxis1"; "yaxis1"; "xaxis2"; "yaxis2"; "xaxis3"; "yaxis3"; "xaxis4"; "yaxis4"]
    /\ map fst (filter (fun ka => match axis_title (snd ka) with
                                  | Some _ => true
                                  | None => false
                                  end) (axes (layout f)))
       = map (fun row => String.append "yaxis" (Py.str_of_int (cell_number 2 row 1)))
             [1; 2]
    /\ Forall (fun ka => axis_title (snd ka) = None
                         \/ axis_title (snd ka) = Some "Normalized Density")
              (axes (layout f))
    /\ hovermode (layout f) = Some "closest"
    /\ height (layout f) = Some 600
    /\ layout_showlegend (layout f) = Some false
    /\ title (layout f) = None.
Proof.
  unfold run. rewrite progression_effect.
  eexists. exists progression_chart.
  split; [reflexivity|].
  split; [reflexivity|].
  split; [reflexivity|].
  split; [reflexivity|].
  split; [|repeat split; reflexivity].
  unfold progression_chart. cbn [layout axes].
  repeat (apply Forall_cons; [cbn; auto|]). apply Forall_nil.
Qed.

End Cells.

(* ================================================================== *)
(** ** Columns *)
(* ================================================================== *)

(** X15.  Taking the first column of an array reshaped to one column gives
    the array back, so what the traces take from [X[:, 0]] and
    [X_plot[:, 0]] are the draws and the grid points themselves, in order;
    the column has one row for each element; and the first column of an
    array with a row of no elements raises. *)
Theorem column_of_newaxis (a : array) (m m' : matrix) :
  column0 (newaxis a) = Some a
  /\ shape0 (newaxis a) = Z.of_nat (List.length a)
  /\ column0 (m ++ [] :: m') = None.
Proof.
  split; [apply column0_newaxis|]. split.
  - unfold shape0. now rewrite length_newaxis.
  - induction m as [|row m IH]; [reflexivity|].
    destruct row as [|v row]; [reflexivity|].
    cbn [app column0]. now rewrite IH.
Qed.
